(** * OptionClient: a verification model of [binanceapi/option.py]

    The Python class [OptionClient] is embedded function by function:
    pure helpers as Rocq functions, Python dictionaries as
    insertion-ordered association lists, exceptions as an error result,
    and the effects of a call (clock samples, HTTP calls, console output,
    sleeps, the order counter) as a state-and-error monad over an explicit
    world. *)

From Stdlib Require Import ZArith List String Ascii Bool Lia Floats.
From Stdlib Require Strings.Byte.
From Stdlib Require Import Sorting.Sorted.
From stdpp Require Import base list.
Import ListNotations.

Local Open Scope Z_scope.
Local Open Scope string_scope.

(** ** Python values and their rendering *)

(** The values a parameter dictionary holds: [None], [int], [float]
    (a binary64) and [str] (a string is its UTF-8 byte sequence). *)
Inductive pyval : Type :=
| PNone
| PInt (z : Z)
| PFloat (f : float)
| PStr (s : string).

(** Python exceptions raised on the paths modelled here. *)
Inductive exn : Type :=
| AttributeError (what : string)
| TypeError (what : string)
| KeyError (key : string)
| ValueError (msg : string).

Inductive result (A : Type) : Type :=
| Ok (a : A)
| Raise (e : exn).
Arguments Ok {A} a.
Arguments Raise {A} e.

Definition rbind {A B} (r : result A) (k : A -> result B) : result B :=
  match r with
  | Ok a => k a
  | Raise e => Raise e
  end.

Fixpoint rmap {A B} (f : A -> result B) (l : list A) : result (list B) :=
  match l with
  | [] => Ok []
  | a :: l' =>
      rbind (f a) (fun b => rbind (rmap f l') (fun bs => Ok (b :: bs)))
  end.

(** [bool(v)]: truth value of a Python object. *)
Definition py_truthy (v : pyval) : bool :=
  match v with
  | PNone => false
  | PInt z => negb (z =? 0)%Z
  | PFloat f => negb (PrimFloat.eqb f 0%float)
  | PStr s => negb (String.eqb s "")
  end.

(** [v > 0]: ordering against the int [0]; [None] and [str] do not
    order against an int. *)
Definition py_gt0 (v : pyval) : result bool :=
  match v with
  | PInt z => Ok (0 <? z)%Z
  | PFloat f => Ok (PrimFloat.ltb 0%float f)
  | PNone => Raise (TypeError "'>' not supported between instances of 'NoneType' and 'int'")
  | PStr _ => Raise (TypeError "'>' not supported between instances of 'str' and 'int'")
  end.

(** [v <= 0], used to state when a stop price is rejected. *)
Definition py_le0 (v : pyval) : bool :=
  match v with
  | PInt z => (z <=? 0)%Z
  | PFloat f => PrimFloat.leb f 0%float
  | _ => false
  end.

(** *** [str(n)] for an int *)

Definition digit_char (d : Z) : ascii := ascii_of_nat (48 + Z.to_nat d).

(** Decimal digits of a non-negative number, most significant first,
    pushed in front of [acc]; [fuel] bounds the number of digits. *)
Fixpoint str_digits (fuel : nat) (n : Z) (acc : string) : string :=
  match fuel with
  | O => acc
  | S fuel' =>
      let acc' := String (digit_char (n mod 10)) acc in
      if (n <? 10)%Z then acc' else str_digits fuel' (n / 10) acc'
  end.

Definition str_nonneg (n : Z) : string :=
  str_digits (S (Z.to_nat (Z.log2 n))) n "".

Definition str_int (z : Z) : string :=
  if (z <? 0)%Z then "-" ++ str_nonneg (- z) else str_nonneg z.

(** [repr] of a binary64 (the shortest decimal that reads back as the
    same float) is the interpreter's; the model takes it as a parameter. *)
Class FloatRepr : Type := float_repr : float -> string.

(** [str(v)], which is what an f-string field [{v}] renders. *)
Definition py_str `{FR : FloatRepr} (v : pyval) : string :=
  match v with
  | PNone => "None"
  | PInt z => str_int z
  | PFloat f => float_repr f
  | PStr s => s
  end.

(** ** Dictionaries

    A [dict] keeps its items in insertion order; every key occurs once. *)
Definition dict : Type := list (string * pyval).

Fixpoint dict_get (d : dict) (k : string) : option pyval :=
  match d with
  | [] => None
  | (k', v) :: d' => if String.eqb k' k then Some v else dict_get d' k
  end.

(** [d[k]] *)
Definition dict_getitem (d : dict) (k : string) : result pyval :=
  match dict_get d k with
  | Some v => Ok v
  | None => Raise (KeyError k)
  end.

(** [d[k] = v]: an existing key keeps its position, a new key goes last. *)
Fixpoint dict_set (d : dict) (k : string) (v : pyval) : dict :=
  match d with
  | [] => [(k, v)]
  | (k', v') :: d' =>
      if String.eqb k' k then (k', v) :: d' else (k', v') :: dict_set d' k v
  end.

(** [del d[k]] for a key that is present. *)
Fixpoint dict_del (d : dict) (k : string) : dict :=
  match d with
  | [] => []
  | (k', v') :: d' =>
      if String.eqb k' k then d' else (k', v') :: dict_del d' k
  end.

Definition dict_keys (d : dict) : list string := map fst d.

(** A dictionary display [{k1: v1, k2: v2, ...}]. *)
Definition dict_of (items : list (string * pyval)) : dict :=
  fold_left (fun d kv => dict_set d (fst kv) (snd kv)) items [].

(** [keys.sort()] on a list of [str]: ascending code-point order, which on
    UTF-8 byte strings is ascending byte order. *)
Fixpoint sort_insert (k : string) (l : list string) : list string :=
  match l with
  | [] => [k]
  | k' :: l' => if String.leb k k' then k :: l else k' :: sort_insert k l'
  end.

Definition list_sort (l : list string) : list string :=
  fold_right sort_insert [] l.

(** [sep.join(pieces)] *)
Fixpoint join (sep : string) (pieces : list string) : string :=
  match pieces with
  | [] => ""
  | [p] => p
  | p :: rest => p ++ sep ++ join sep rest
  end.

(** ** The parameter encoder *)

(** [OptionClient.build_parameters]: the sorted key list [keys] is
    computed, but the comprehension iterates [params.keys()]. *)
Definition build_parameters `{FR : FloatRepr} (params : dict) : result string :=
  let keys := dict_keys params in
  let keys := list_sort keys in
  rbind
    (rmap (fun key =>
             rbind (dict_getitem params key) (fun v =>
             Ok (key ++ "=" ++ py_str v)))
          (dict_keys params))
    (fun pieces => Ok (join "&" pieces)).

(** The encoder of the specification (section 4.1), for comparison: the
    same comprehension over the sorted keys. *)
Definition build_parameters_sorted `{FR : FloatRepr} (params : dict) : result string :=
  let keys := dict_keys params in
  let keys := list_sort keys in
  rbind
    (rmap (fun key =>
             rbind (dict_getitem params key) (fun v =>
             Ok (key ++ "=" ++ py_str v)))
          keys)
    (fun pieces => Ok (join "&" pieces)).


(** ** [hashlib.sha256] and [hmac]

    The digest of the standard library (FIPS 180-4) and the keyed MAC built
    on it (RFC 2104), on 32-bit words held in [Z]. *)
Module SHA256.

Local Open Scope list_scope.

Definition bytes : Type := list Byte.byte.

Definition byte_val (b : Byte.byte) : Z := Z.of_N (Byte.to_N b).

Definition byte_of (z : Z) : Byte.byte :=
  match Byte.of_N (Z.to_N (z mod 256)) with
  | Some b => b
  | None => Byte.x00
  end.

Definition w32 (x : Z) : Z := x mod 2 ^ 32.
Definition add32 (x y : Z) : Z := w32 (x + y).

Definition rotr (n x : Z) : Z :=
  Z.lor (Z.shiftr x n) (w32 (Z.shiftl x (32 - n))).

Definition Ch (x y z : Z) : Z :=
  Z.lxor (Z.land x y) (Z.land (Z.lnot x) z).
Definition Maj (x y z : Z) : Z :=
  Z.lxor (Z.lxor (Z.land x y) (Z.land x z)) (Z.land y z).
Definition Sigma0 (x : Z) : Z :=
  Z.lxor (Z.lxor (rotr 2 x) (rotr 13 x)) (rotr 22 x).
Definition Sigma1 (x : Z) : Z :=
  Z.lxor (Z.lxor (rotr 6 x) (rotr 11 x)) (rotr 25 x).
Definition sigma0 (x : Z) : Z :=
  Z.lxor (Z.lxor (rotr 7 x) (rotr 18 x)) (Z.shiftr x 3).
Definition sigma1 (x : Z) : Z :=
  Z.lxor (Z.lxor (rotr 17 x) (rotr 19 x)) (Z.shiftr x 10).

(** The round constants and the initial chaining value are defined as the
    standard defines them: the first 32 bits of the fractional parts of
    the cube roots, respectively square roots, of the first primes. *)
Definition is_prime (p : Z) : bool :=
  forallb (fun d => negb (p mod d =? 0)%Z)
          (map Z.of_nat (seq 2 (Z.to_nat p - 2))).

Definition primes_below (n : nat) : list Z :=
  filter (fun p => is_prime p = true) (map Z.of_nat (seq 2 (n - 2))).

(** The integer cube root, built from its bit [b - 1] down to bit 0. *)
Fixpoint cube_root_bits (b : nat) (n root : Z) : Z :=
  match b with
  | O => root
  | S b' =>
      let r := (root + 2 ^ Z.of_nat b')%Z in
      cube_root_bits b' n (if (r * r * r <=? n)%Z then r else root)
  end.

Definition cube_root_frac (p : Z) : Z :=
  w32 (cube_root_bits 36 (p * 2 ^ 96) 0).

Definition square_root_frac (p : Z) : Z :=
  w32 (Z.sqrt (p * 2 ^ 64)).

Definition K : list Z :=
  Eval vm_compute in map cube_root_frac (primes_below 312).

(** The eight working variables [a .. h], also the chaining value. *)
Record regs : Type := Regs {
  ra : Z; rb : Z; rc : Z; rd : Z; re : Z; rf : Z; rg : Z; rh : Z
}.

Definition H0 : regs :=
  Eval vm_compute in
    Regs (square_root_frac 2) (square_root_frac 3) (square_root_frac 5)
         (square_root_frac 7) (square_root_frac 11) (square_root_frac 13)
         (square_root_frac 17) (square_root_frac 19).

(** Big-endian bytes of a number, [n] of them. *)
Fixpoint be_bytes (n : nat) (x : Z) : list Z :=
  match n with
  | O => []
  | S n' => ((Z.shiftr x (8 * Z.of_nat n')) mod 256)%Z :: be_bytes n' x
  end.

(** Message padding: a [0x80] byte, zeros up to 56 modulo 64, then the bit
    length on eight bytes. *)
Definition pad (msg : list Z) : list Z :=
  let len := Z.of_nat (length msg) in
  msg ++ [0x80%Z] ++ repeat 0%Z (Z.to_nat ((55 - len) mod 64))
      ++ be_bytes 8 (8 * len).

Fixpoint be_words (bs : list Z) : list Z :=
  match bs with
  | b0 :: b1 :: b2 :: b3 :: rest =>
      (((b0 * 256 + b1) * 256 + b2) * 256 + b3)%Z :: be_words rest
  | _ => []
  end.

(** One round on the sliding window of the last sixteen schedule words. *)
Definition round (st : regs * list Z) (k : Z) : regs * list Z :=
  let '(r, w) := st in
  let wt := nth 0 w 0%Z in
  let t1 := add32 (add32 (add32 (add32 (rh r) (Sigma1 (re r)))
                                 (Ch (re r) (rf r) (rg r))) k) wt in
  let t2 := add32 (Sigma0 (ra r)) (Maj (ra r) (rb r) (rc r)) in
  let wnew := add32 (add32 (add32 (sigma1 (nth 14 w 0%Z)) (nth 9 w 0%Z))
                           (sigma0 (nth 1 w 0%Z))) wt in
  (Regs (add32 t1 t2) (ra r) (rb r) (rc r) (add32 (rd r) t1) (re r) (rf r) (rg r),
   tl w ++ [wnew]).

Definition compress (h : regs) (block : list Z) : regs :=
  let r := fst (fold_left round K (h, be_words block)) in
  Regs (add32 (ra h) (ra r)) (add32 (rb h) (rb r)) (add32 (rc h) (rc r))
       (add32 (rd h) (rd r)) (add32 (re h) (re r)) (add32 (rf h) (rf r))
       (add32 (rg h) (rg r)) (add32 (rh h) (rh r)).

Fixpoint blocks (n : nat) (h : regs) (bs : list Z) : regs :=
  match n with
  | O => h
  | S n' => blocks n' (compress h (firstn 64 bs)) (skipn 64 bs)
  end.

Definition digest_bytes (h : regs) : list Z :=
  be_bytes 4 (ra h) ++ be_bytes 4 (rb h) ++ be_bytes 4 (rc h)
  ++ be_bytes 4 (rd h) ++ be_bytes 4 (re h) ++ be_bytes 4 (rf h)
  ++ be_bytes 4 (rg h) ++ be_bytes 4 (rh h).

Definition sha256_Z (msg : list Z) : list Z :=
  let p := pad msg in
  digest_bytes (blocks (length p / 64)%nat H0 p).

(** [hashlib.sha256(msg).digest()] *)
Definition sha256 (msg : bytes) : bytes :=
  map byte_of (sha256_Z (map byte_val msg)).

(** [hmac.new(key, msg, hashlib.sha256).digest()] *)
Definition hmac_sha256 (key msg : bytes) : bytes :=
  let key := map byte_val key in
  let key := if (64 <? length key)%nat then sha256_Z key else key in
  let key := key ++ repeat 0%Z (64 - length key)%nat in
  let ikey := map (Z.lxor 0x36) key in
  let okey := map (Z.lxor 0x5c) key in
  map byte_of (sha256_Z (okey ++ sha256_Z (ikey ++ map byte_val msg))).

Definition hex_char (d : Z) : ascii :=
  if (d <? 10)%Z then ascii_of_nat (48 + Z.to_nat d)
  else ascii_of_nat (87 + Z.to_nat d).

(** [.hexdigest()]: two lowercase hexadecimal digits per byte. *)
Fixpoint hexdigest (bs : bytes) : string :=
  match bs with
  | [] => ""
  | b :: rest =>
      String (hex_char (byte_val b / 16))
        (String (hex_char (byte_val b mod 16)) (hexdigest rest))
  end.

End SHA256.

(** [s.encode('utf8')]: a [str] is held as its UTF-8 bytes. *)
Definition encode_utf8 (s : string) : SHA256.bytes := list_byte_of_string s.

(** ** Enumerations of [binanceapi.constant] *)

(** Modelled from the spec: [binanceapi/constant.py] is not among the
    sources. The spec calls these string-based enum values and lists the
    verbs GET, POST, PUT and DELETE; [option.py] names the order types
    LIMIT, MARKET and STOP. A member's [.value] is taken to be its name. *)
Inductive RequestMethod : Type := GET | POST | PUT | DELETE.

Definition RequestMethod_value (m : RequestMethod) : string :=
  match m with
  | GET => "GET" | POST => "POST" | PUT => "PUT" | DELETE => "DELETE"
  end.

Inductive OrderSide : Type := BUY | SELL.

Definition OrderSide_value (s : OrderSide) : string :=
  match s with BUY => "BUY" | SELL => "SELL" end.

Inductive OrderType : Type := LIMIT | MARKET | STOP.

Definition OrderType_value (t : OrderType) : string :=
  match t with LIMIT => "LIMIT" | MARKET => "MARKET" | STOP => "STOP" end.

Definition OrderType_eqb (a b : OrderType) : bool :=
  match a, b with
  | LIMIT, LIMIT | MARKET, MARKET | STOP, STOP => true
  | _, _ => false
  end.

(** A kline interval is represented by its wire value. *)
Record Interval : Type := { Interval_value : string }.

(** ** The client object and the world it runs in *)

(** The attributes [__init__] sets. The lock [order_count_lock] guards
    [order_count]; it appears in the threaded model further down. *)
Record OptionClient : Type := {
  api_key : option string;
  api_secret : option string;
  host : string;
  recv_window : Z;
  timeout : Z;
  order_count : Z;
  try_counts : Z
}.

(** [OptionClient.__init__]; [host if host else ...] also replaces an empty
    host. The defaults of the signature are [None], [None], [None],
    [5], [5]. *)
Definition __init__ (api_key api_secret host : option string)
    (timeout try_counts : Z) : OptionClient :=
  {| api_key := api_key;
     api_secret := api_secret;
     host := match host with
             | Some h => if String.eqb h "" then "https://testnet.binanceops.com" else h
             | None => "https://testnet.binanceops.com"
             end;
     recv_window := 10000;
     timeout := timeout;
     order_count := 1000000;
     try_counts := try_counts |}.

(** A decoded JSON document. JSON [null] decodes to Python's [None], so
    [JNull] is also what a function returns when it falls off its end. *)
#[warnings="-register-all"]
Inductive json : Type :=
| JNull
| JBool (b : bool)
| JInt (z : Z)
| JFloat (f : float)
| JStr (s : string)
| JList (l : list json)
| JDict (l : list (string * json)).

(** What [requests.request] hands back: the status code, and the body as
    [response.json()] decodes it ([None] when the body is not JSON). *)
Record response : Type := {
  status_code : Z;
  body : option json
}.

(** Exceptions: those of the first list, plus what the HTTP library raises. *)
Inductive error : Type :=
| Builtin (e : exn)
| RequestException (what : string)
| JSONDecodeError.

(** The outcome of one call of [requests.request]. *)
Inductive outcome : Type :=
| Reply (r : response)
| Fails (e : error).

(** What a [print] call writes. *)
Inductive printed : Type :=
| PrintStatus (doc : json) (status : Z)
| PrintRequestError (path : string) (e : error)
| PrintParams (params : dict)
| PrintCancelError (e : error).

(** Observable actions, in the order they happen. *)
Inductive event : Type :=
| EHttp (method url : string) (headers : list (string * option string))
        (timeout : Z)
| EPrint (what : printed)
| ESleep (seconds : Z).

(** The surroundings of a run: the millisecond value the [k]-th reading of
    the clock yields, and the outcome of the [k]-th HTTP call. *)
Record Env : Type := {
  clock : nat -> Z;
  network : nat -> outcome
}.

Record World : Type := {
  self : OptionClient;
  ticks : nat;
  calls : nat;
  trace : list event
}.

(** *** The monad of methods: state, and exceptions that keep the state *)

Inductive answer (A : Type) : Type :=
| Return (a : A)
| Throw (e : error).
Arguments Return {A} a.
Arguments Throw {A} e.

Definition M (A : Type) : Type := World -> answer A * World.

Definition ret {A} (a : A) : M A := fun w => (Return a, w).

Definition bind {A B} (c : M A) (k : A -> M B) : M B :=
  fun w =>
    match c w with
    | (Return a, w') => k a w'
    | (Throw e, w') => (Throw e, w')
    end.

Definition throw {A} (e : error) : M A := fun w => (Throw e, w).

(** [try: c  except Exception as e: handler e] *)
Definition try_except {A} (c : M A) (handler : error -> M A) : M A :=
  fun w =>
    match c w with
    | (Return a, w') => (Return a, w')
    | (Throw e, w') => handler e w'
    end.

Definition lift {A} (r : result A) : M A :=
  match r with
  | Ok a => ret a
  | Raise e => throw (Builtin e)
  end.

Declare Scope py_scope.
Delimit Scope py_scope with py.
Notation "x <- c ;; k" := (bind c (fun x => k))
  (at level 100, c at next level, right associativity) : py_scope.
Notation "c ;; k" := (bind c (fun _ => k))
  (at level 100, right associativity) : py_scope.
Local Open Scope py_scope.

Definition get_self : M OptionClient := fun w => (Return (self w), w).

Definition set_order_count (n : Z) : M unit :=
  fun w =>
    (Return tt,
     {| self := {| api_key := api_key (self w);
                   api_secret := api_secret (self w);
                   host := host (self w);
                   recv_window := recv_window (self w);
                   timeout := timeout (self w);
                   order_count := n;
                   try_counts := try_counts (self w) |};
        ticks := ticks w; calls := calls w; trace := trace w |}).

Definition emit (e : event) : M unit :=
  fun w =>
    (Return tt,
     {| self := self w; ticks := ticks w; calls := calls w;
        trace := (trace w ++ [e])%list |}).

Definition print (p : printed) : M unit := emit (EPrint p).

(** [time.sleep(seconds)] *)
Definition sleep (seconds : Z) : M unit := emit (ESleep seconds).

(** The text [get_client_order_id] returns for a clock reading [t] and a
    counter value [c]. *)
Definition client_order_id_text (t c : Z) : string :=
  "x-A6SIDXVS" ++ str_int t ++ str_int c.

(** ** The methods of [OptionClient] *)

Section Methods.

Context `{FR : FloatRepr} (env : Env).

(** [OptionClient.get_timestamp]: [int(time.time() * 1000)], one reading of
    the clock. *)
Definition get_timestamp : M Z :=
  fun w =>
    (Return (clock env (ticks w)),
     {| self := self w; ticks := S (ticks w); calls := calls w;
        trace := trace w |}).

(** [OptionClient.get_client_order_id] as one thread runs it: the [with]
    block takes and releases the lock around its body. *)
Definition get_client_order_id : M string :=
  me <- get_self ;;
  set_order_count (order_count me + 1) ;;
  t <- get_timestamp ;;
  me <- get_self ;;
  ret (client_order_id_text t (order_count me)).

(** [OptionClient._sign]. A [params] of [None] fails in
    [build_parameters] at [params.keys()], an [api_secret] of [None] at
    [.encode]. *)
Definition _sign (me : OptionClient) (params : option dict) : result string :=
  match params with
  | None => Raise (AttributeError "'NoneType' object has no attribute 'keys'")
  | Some params =>
      rbind (build_parameters params) (fun query_string =>
      match api_secret me with
      | None => Raise (AttributeError "'NoneType' object has no attribute 'encode'")
      | Some secret =>
          let hex_digest :=
            SHA256.hexdigest
              (SHA256.hmac_sha256 (encode_utf8 secret) (encode_utf8 query_string)) in
          Ok (query_string ++ "&signature=" ++ hex_digest)
      end)
  end.

(** [requests.request(method, url=url, headers=headers, timeout=timeout)] *)
Definition requests_request (method url : string)
    (headers : list (string * option string)) (timeout : Z) : M response :=
  fun w =>
    let w' := {| self := self w; ticks := ticks w; calls := S (calls w);
                 trace := (trace w ++ [EHttp method url headers timeout])%list |} in
    match network env (calls w) with
    | Reply r => (Return r, w')
    | Fails e => (Throw e, w')
    end.

(** [response.json()] *)
Definition response_json (r : response) : M json :=
  match body r with
  | Some doc => ret doc
  | None => throw JSONDecodeError
  end.

(** [bool(params)] for the [params] argument of [request]. *)
Definition params_truthy (params : option dict) : bool :=
  match params with
  | Some (_ :: _) => true
  | _ => false
  end.

(** The first lines of [request]: the URL, with its query string. *)
Definition request_url (me : OptionClient) (path : string)
    (params : option dict) (verify : bool) : result string :=
  let url := host me ++ path in
  if verify then
    rbind (_sign me params) (fun query_str => Ok (url ++ "?" ++ query_str))
  else if params_truthy params then
    match params with
    | Some d => rbind (build_parameters d) (fun q => Ok (url ++ "?" ++ q))
    | None => Ok url
    end
  else Ok url.

(** The body of the [for] loop of [request]: [Some doc] when the iteration
    executes [return response.json()], [None] when it runs to its end. *)
Definition request_attempt (req_method : RequestMethod) (path url : string)
    (headers : list (string * option string)) : M (option json) :=
  try_except
    (me <- get_self ;;
     response <- requests_request (RequestMethod_value req_method) url headers
                   (timeout me) ;;
     if (status_code response =? 200)%Z then
       doc <- response_json response ;;
       ret (Some doc)
     else
       doc <- response_json response ;;
       print (PrintStatus doc (status_code response)) ;;
       ret None)
    (fun error =>
       print (PrintRequestError path error) ;;
       sleep 3 ;;
       ret None).

(** [for i in range(0, n): ...], then the implicit [return None]. *)
Fixpoint request_loop (n : nat) (req_method : RequestMethod)
    (path url : string) (headers : list (string * option string)) : M json :=
  match n with
  | O => ret JNull
  | S n' =>
      r <- request_attempt req_method path url headers ;;
      match r with
      | Some doc => ret doc
      | None => request_loop n' req_method path url headers
      end
  end.

(** [OptionClient.request] *)
Definition request (req_method : RequestMethod) (path : string)
    (params : option dict) (verify : bool) : M json :=
  me <- get_self ;;
  url <- lift (request_url me path params verify) ;;
  let headers := [("X-MBX-APIKEY", api_key me)] in
  request_loop (Z.to_nat (try_counts me)) req_method path url headers.

(** *** Public endpoints *)

Definition get_ping : M json :=
  let path := "/api/v1/ping" in
  request GET path None false.

Definition get_server_time : M json :=
  let path := "/api/v1/time" in
  request GET path None false.

Definition get_option_info : M json :=
  let path := "/api/v1/optionInfo" in
  request GET path None false.

Definition get_exchange_info : M json :=
  let path := "/api/v1/exchangeInfo" in
  request GET path None false.

Definition get_index (underlying : string) : M json :=
  let path := "/api/v1/index" in
  let params := dict_of [("underlying", PStr underlying)] in
  request GET path (Some params) false.

Definition get_ticker (symbol : option string) : M json :=
  let path := "/api/v1/ticker" in
  let params := dict_of [] in
  let params := match symbol with
                | Some s => dict_set params "symbol" (PStr s)
                | None => params
                end in
  request GET path (Some params) false.

Definition get_mark (symbol : option string) : M json :=
  let path := "/api/v1/mark" in
  let params := dict_of [] in
  let params := match symbol with
                | Some s => dict_set params "symbol" (PStr s)
                | None => params
                end in
  request GET path (Some params) false.

Definition Z_in (x : Z) (l : list Z) : bool := existsb (Z.eqb x) l.

Definition get_order_book (symbol : string) (limit : Z) : M json :=
  let limits := [10; 20; 50; 100; 1000]%Z in
  let limit := if negb (Z_in limit limits) then 10%Z else limit in
  let path := "/api/v1/depth" in
  let params := dict_of [("symbol", PStr symbol); ("limit", PInt limit)] in
  print (PrintParams params) ;;
  request GET path (Some params) false.

Definition get_kline (symbol : string) (interval : Interval)
    (start_time end_time : option Z) (limit : Z) : M json :=
  let path := "/api/v1/klines" in
  let limit := if negb (Z_in limit [500; 1500]%Z) then 500%Z else limit in
  let params := dict_of [("symbol", PStr symbol);
                         ("interval", PStr (Interval_value interval));
                         ("limit", PInt limit)] in
  let params := match start_time with
                | Some t => if py_truthy (PInt t)
                            then dict_set params "startTime" (PInt t) else params
                | None => params
                end in
  let params := match end_time with
                | Some t => if py_truthy (PInt t)
                            then dict_set params "endTime" (PInt t) else params
                | None => params
                end in
  request GET path (Some params) false.

Definition get_trades (symbol : string) (limit : Z) : M json :=
  let path := "/api/v1/trades" in
  let limit := if negb (Z_in limit [100; 500]%Z) then 100%Z else limit in
  let params := dict_of [("symbol", PStr symbol); ("limit", PInt limit)] in
  request GET path (Some params) false.

Definition get_historical_trades (symbol : string) (from_id : option Z)
    (limit : Z) : M json :=
  let path := "/api/v1/historicalTrades" in
  let limit := if negb (Z_in limit [100; 500]%Z) then 100%Z else limit in
  let params := dict_of [("symbol", PStr symbol); ("limit", PInt limit)] in
  let params := match from_id with
                | Some i => dict_set params "fromId" (PInt i)
                | None => params
                end in
  request GET path (Some params) false.

(** *** Signed endpoints

    Each method builds its [params] dictionary and hands it to [request]
    with [verify=True]; the dictionary is given a definition of its own
    so that statements can speak about it. *)

Definition get_listen_key_params : M dict :=
  t <- get_timestamp ;;
  ret (dict_of [("recvWindow", PInt 5000); ("timestamp", PInt t)]).

Definition get_listen_key : M json :=
  let path := "/api/v1/userDataStream" in
  params <- get_listen_key_params ;;
  request POST path (Some params) true.

Definition extend_listen_key_params (listen_key : string) : M dict :=
  t <- get_timestamp ;;
  ret (dict_of [("recvWindow", PInt 5000); ("timestamp", PInt t);
                ("listenKey", PStr listen_key)]).

Definition extend_listen_key (listen_key : string) : M json :=
  let path := "/api/v1/userDataStream" in
  params <- extend_listen_key_params listen_key ;;
  request PUT path (Some params) true.

(** [delete_listen_key] is [pass]. *)
Definition delete_listen_key : M json := ret JNull.

(** [params.get('price')] as a condition. *)
Definition dict_get_truthy (d : dict) (k : string) : bool :=
  match dict_get d k with
  | Some v => py_truthy v
  | None => false
  end.

Definition place_order_params (symbol : string) (order_side : OrderSide)
    (order_type : OrderType) (quantity price : pyval)
    (client_order_id : option string) (time_inforce : string)
    (stop_price : pyval) : M dict :=
  client_order_id <- match client_order_id with
                     | None => get_client_order_id
                     | Some c => ret c
                     end ;;
  me <- get_self ;;
  t <- get_timestamp ;;
  let params := dict_of [("symbol", PStr symbol);
                         ("side", PStr (OrderSide_value order_side));
                         ("type", PStr (OrderType_value order_type));
                         ("quantity", quantity);
                         ("price", price);
                         ("recvWindow", PInt (recv_window me));
                         ("timestamp", PInt t);
                         ("newClientOrderId", PStr client_order_id)] in
  let params := if OrderType_eqb order_type LIMIT
                then dict_set params "timeInForce" (PStr time_inforce)
                else params in
  let params := if OrderType_eqb order_type MARKET
                then if dict_get_truthy params "price"
                     then dict_del params "price"
                     else params
                else params in
  if OrderType_eqb order_type STOP then
    positive <- lift (py_gt0 stop_price) ;;
    if (positive : bool) then ret (dict_set params "stopPrice" stop_price)
    else throw (Builtin (ValueError "stopPrice must greater than 0"))
  else ret params.

(** [OptionClient.place_order]; the defaults of the signature are
    [client_order_id=None], [time_inforce="GTC"], [stop_price=0]. *)
Definition place_order (symbol : string) (order_side : OrderSide)
    (order_type : OrderType) (quantity price : pyval)
    (client_order_id : option string) (time_inforce : string)
    (stop_price : pyval) : M json :=
  let path := "/api/v1/order" in
  params <- place_order_params symbol order_side order_type quantity price
              client_order_id time_inforce stop_price ;;
  request POST path (Some params) true.

Definition get_order_params (symbol client_order_id : string) : M dict :=
  t <- get_timestamp ;;
  ret (dict_of [("symbol", PStr symbol); ("timestamp", PInt t);
                ("origClientOrderId", PStr client_order_id)]).

Definition get_order (symbol client_order_id : string) : M json :=
  let path := "/api/v1/order" in
  prams <- get_order_params symbol client_order_id ;;
  request GET path (Some prams) true.

Definition cancel_order_params (symbol client_order_id : string) : M dict :=
  t <- get_timestamp ;;
  ret (dict_of [("symbol", PStr symbol); ("timestamp", PInt t);
                ("origClientOrderId", PStr client_order_id)]).

(** The [for i in range(0, 3)] loop of [cancel_order]: the first call of
    [request] that does not raise ends it. *)
Fixpoint cancel_order_loop (n : nat) (path : string) (params : dict) : M json :=
  match n with
  | O => ret JNull
  | S n' =>
      r <- try_except
             (order <- request DELETE path (Some params) true ;;
              ret (Some order))
             (fun error => print (PrintCancelError error) ;; ret None) ;;
      match r with
      | Some order => ret order
      | None => cancel_order_loop n' path params
      end
  end.

Definition cancel_order (symbol client_order_id : string) : M json :=
  let path := "/api/v1/order" in
  params <- cancel_order_params symbol client_order_id ;;
  cancel_order_loop 3 path params.

Definition get_open_orders_params (symbol : option string) : M dict :=
  t <- get_timestamp ;;
  let params := dict_of [("timestamp", PInt t)] in
  ret (match symbol with
       | Some s => if py_truthy (PStr s)
                   then dict_set params "symbol" (PStr s) else params
       | None => params
       end).

Definition get_open_orders (symbol : option string) : M json :=
  let path := "/api/v1/openOrders" in
  params <- get_open_orders_params symbol ;;
  request GET path (Some params) true.

Definition cancel_open_orders_params (symbol : string) : M dict :=
  t <- get_timestamp ;;
  me <- get_self ;;
  ret (dict_of [("timestamp", PInt t); ("recvWindow", PInt (recv_window me));
                ("symbol", PStr symbol)]).

Definition cancel_open_orders (symbol : string) : M json :=
  let path := "/api/v1/openOrders" in
  params <- cancel_open_orders_params symbol ;;
  request DELETE path (Some params) true.

Definition get_account_info_params : M dict :=
  t <- get_timestamp ;;
  me <- get_self ;;
  ret (dict_of [("timestamp", PInt t); ("recvWindow", PInt (recv_window me))]).

Definition get_account_info : M json :=
  let path := "/api/v1/account" in
  params <- get_account_info_params ;;
  request GET path (Some params) true.

End Methods.

(** ** [get_client_order_id] under threads

    Several threads call [get_client_order_id] on one client. A thread's
    progress through the method is its control point; the interpreter may
    switch threads between any two of them. The read and the write of
    [self.order_count += 1] are separate points, so it is the lock that
    keeps the counter exact. *)
Module Threads.

Inductive thread : Type :=
| Idle                (* at the [with] statement, lock not yet taken *)
| Locked              (* inside the block *)
| Loaded (v : Z)      (* has read [self.order_count] *)
| Stored              (* has written the sum back *)
| Stamped (t : Z)     (* [self.get_timestamp()] has returned [t] *)
| Built (t c : Z)     (* has read [self.order_count] again: [c] *)
| Done (t c : Z).     (* lock released; returns the text for [t] and [c] *)

Record state : Type := {
  order_count : Z;
  locked : bool;
  ticks : nat;
  pool : list thread
}.

Definition set_thread (i : nat) (th : thread) (s : state) : list thread :=
  <[i := th]> (pool s).

(** One step of thread [i]; [None] when it has none to take (it waits for
    the lock, has returned, or does not exist). *)
Definition step_thread (clock : nat -> Z) (i : nat) (s : state) : option state :=
  match pool s !! i with
  | Some Idle =>
      if locked s then None
      else Some {| order_count := order_count s; locked := true;
                   ticks := ticks s; pool := set_thread i Locked s |}
  | Some Locked =>
      Some {| order_count := order_count s; locked := locked s;
              ticks := ticks s; pool := set_thread i (Loaded (order_count s)) s |}
  | Some (Loaded v) =>
      Some {| order_count := v + 1; locked := locked s;
              ticks := ticks s; pool := set_thread i Stored s |}
  | Some Stored =>
      Some {| order_count := order_count s; locked := locked s;
              ticks := S (ticks s);
              pool := set_thread i (Stamped (clock (ticks s))) s |}
  | Some (Stamped t) =>
      Some {| order_count := order_count s; locked := locked s;
              ticks := ticks s; pool := set_thread i (Built t (order_count s)) s |}
  | Some (Built t c) =>
      Some {| order_count := order_count s; locked := false;
              ticks := ticks s; pool := set_thread i (Done t c) s |}
  | Some (Done _ _) => None
  | None => None
  end.

(** A schedule names the thread that moves at each step. *)
Fixpoint run (clock : nat -> Z) (schedule : list nat) (s : state) : option state :=
  match schedule with
  | [] => Some s
  | i :: rest =>
      match step_thread clock i s with
      | Some s' => run clock rest s'
      | None => None
      end
  end.

(** [n] threads about to call the method on a client whose counter is [c0],
    after [k0] readings of the clock. *)
Definition init (c0 : Z) (k0 n : nat) : state :=
  {| order_count := c0; locked := false; ticks := k0; pool := replicate n Idle |}.

(** What a thread has returned. *)
Definition returned (th : thread) : option string :=
  match th with
  | Done t c => Some (client_order_id_text t c)
  | _ => None
  end.


Definition is_done (th : thread) : bool :=
  match th with
  | Done _ _ => true
  | _ => false
  end.

(** Every call has returned. *)
Definition finished (s : state) : Prop :=
  Forall (fun th => is_done th = true) (pool s).





(** A clock that does not run backwards and reads no negative value. *)
Definition clock_ok (clock : nat -> Z) : Prop :=
  (forall k, 0 <= clock k)%Z
  /\ (forall j k, (j <= k)%nat -> (clock j <= clock k)%Z).




End Threads.

(** * Notions used in the statements *)

(** ** The encoder *)

(** A list of keys in ascending order. *)
Definition keys_sorted (l : list string) : Prop :=
  StronglySorted (fun a b => String.leb a b = true) l.

(** ** Outcomes and events of the attempt loop *)

(** The document an outcome makes [request] return: a status of 200 whose
    body decodes. *)
Definition outcome_doc (o : outcome) : option json :=
  match o with
  | Reply r => if (status_code r =? 200)%Z then body r else None
  | Fails _ => None
  end.

(** An outcome that is not an HTTP 200 response: a response with another
    status, or an exception raised by the HTTP library. *)
Definition not_200 (o : outcome) : Prop :=
  match o with
  | Reply r => status_code r <> 200%Z
  | Fails _ => True
  end.

(** The headers [request] builds. *)
Definition api_headers (me : OptionClient) : list (string * option string) :=
  [("X-MBX-APIKEY", api_key me)].

(** The events of one attempt whose outcome is [o]. *)
Definition attempt_events (method path url : string)
    (headers : list (string * option string)) (timeout : Z) (o : outcome)
    : list event :=
  EHttp method url headers timeout ::
  match o with
  | Reply r =>
      match body r with
      | Some doc =>
          if (status_code r =? 200)%Z then []
          else [EPrint (PrintStatus doc (status_code r))]
      | None => [EPrint (PrintRequestError path JSONDecodeError); ESleep 3]
      end
  | Fails e => [EPrint (PrintRequestError path e); ESleep 3]
  end.

(** The events of the attempts numbered [k], [k+1], ..., [k+n-1]. *)
Fixpoint attempts_events (env : Env) (method path url : string)
    (headers : list (string * option string)) (timeout : Z) (k n : nat)
    : list event :=
  match n with
  | O => []
  | S n' =>
      (attempt_events method path url headers timeout (network env k)
       ++ attempts_events env method path url headers timeout (S k) n')%list
  end.

(** The HTTP calls among the events. *)
Definition is_http (e : event) : bool :=
  match e with EHttp _ _ _ _ => true | _ => false end.

(** How many events of a list satisfy [p]. *)
Definition count_events (p : event -> bool) (l : list event) : nat :=
  length (filter (fun e => p e = true) l).

(** ** The calls of the class *)

(** The calls a user of the class can make, [request] itself included. *)
Inductive api_call : Type :=
| CallRequest (m : RequestMethod) (path : string) (params : option dict)
              (verify : bool)
| CallGetPing
| CallGetServerTime
| CallGetOptionInfo
| CallGetExchangeInfo
| CallGetIndex (underlying : string)
| CallGetTicker (symbol : option string)
| CallGetMark (symbol : option string)
| CallGetOrderBook (symbol : string) (limit : Z)
| CallGetKline (symbol : string) (interval : Interval)
               (start_time end_time : option Z) (limit : Z)
| CallGetTrades (symbol : string) (limit : Z)
| CallGetHistoricalTrades (symbol : string) (from_id : option Z) (limit : Z)
| CallGetListenKey
| CallExtendListenKey (listen_key : string)
| CallDeleteListenKey
| CallPlaceOrder (symbol : string) (order_side : OrderSide)
                 (order_type : OrderType) (quantity price : pyval)
                 (client_order_id : option string) (time_inforce : string)
                 (stop_price : pyval)
| CallGetOrder (symbol client_order_id : string)
| CallCancelOrder (symbol client_order_id : string)
| CallGetOpenOrders (symbol : option string)
| CallCancelOpenOrders (symbol : string)
| CallGetAccountInfo.

Definition invoke `{FR : FloatRepr} (env : Env) (c : api_call) : M json :=
  match c with
  | CallRequest m path params verify => request env m path params verify
  | CallGetPing => get_ping env
  | CallGetServerTime => get_server_time env
  | CallGetOptionInfo => get_option_info env
  | CallGetExchangeInfo => get_exchange_info env
  | CallGetIndex underlying => get_index env underlying
  | CallGetTicker symbol => get_ticker env symbol
  | CallGetMark symbol => get_mark env symbol
  | CallGetOrderBook symbol limit => get_order_book env symbol limit
  | CallGetKline symbol interval start_time end_time limit =>
      get_kline env symbol interval start_time end_time limit
  | CallGetTrades symbol limit => get_trades env symbol limit
  | CallGetHistoricalTrades symbol from_id limit =>
      get_historical_trades env symbol from_id limit
  | CallGetListenKey => get_listen_key env
  | CallExtendListenKey listen_key => extend_listen_key env listen_key
  | CallDeleteListenKey => delete_listen_key
  | CallPlaceOrder symbol order_side order_type quantity price client_order_id
                   time_inforce stop_price =>
      place_order env symbol order_side order_type quantity price
        client_order_id time_inforce stop_price
  | CallGetOrder symbol client_order_id => get_order env symbol client_order_id
  | CallCancelOrder symbol client_order_id =>
      cancel_order env symbol client_order_id
  | CallGetOpenOrders symbol => get_open_orders env symbol
  | CallCancelOpenOrders symbol => cancel_open_orders env symbol
  | CallGetAccountInfo => get_account_info env
  end.

(** An event respects the key when, if it is an HTTP call, its headers are
    exactly the [X-MBX-APIKEY] header with that key. *)
Definition carries_key (key : option string) (e : event) : Prop :=
  match e with
  | EHttp _ _ headers _ => headers = [("X-MBX-APIKEY", key)]
  | _ => True
  end.

(** A computation is keyed when, run on a client whose key is [key], it
    only appends events that respect the key and leaves the key alone. *)
Definition keyed {A} (key : option string) (c : M A) : Prop :=
  forall w,
    api_key (self w) = key ->
    exists events,
      trace (snd (c w)) = (trace w ++ events)%list
      /\ Forall (carries_key key) events
      /\ api_key (self (snd (c w))) = key.

(** ** Signed requests and orders *)

(** For a method that signs: the verb, the path, and the computation that
    builds its [params] dictionary. [None] for the unsigned methods and for
    a direct call of [request]. *)
Definition signed_request `{FR : FloatRepr} (env : Env) (c : api_call)
    : option (RequestMethod * string * M dict) :=
  match c with
  | CallGetListenKey =>
      Some (POST, "/api/v1/userDataStream", get_listen_key_params env)
  | CallExtendListenKey listen_key =>
      Some (PUT, "/api/v1/userDataStream", extend_listen_key_params env listen_key)
  | CallPlaceOrder symbol order_side order_type quantity price client_order_id
                   time_inforce stop_price =>
      Some (POST, "/api/v1/order",
            place_order_params env symbol order_side order_type quantity price
              client_order_id time_inforce stop_price)
  | CallGetOrder symbol client_order_id =>
      Some (GET, "/api/v1/order", get_order_params env symbol client_order_id)
  | CallCancelOrder symbol client_order_id =>
      Some (DELETE, "/api/v1/order", cancel_order_params env symbol client_order_id)
  | CallGetOpenOrders symbol =>
      Some (GET, "/api/v1/openOrders", get_open_orders_params env symbol)
  | CallCancelOpenOrders symbol =>
      Some (DELETE, "/api/v1/openOrders", cancel_open_orders_params env symbol)
  | CallGetAccountInfo =>
      Some (GET, "/api/v1/account", get_account_info_params env)
  | _ => None
  end.

(** How a signing method hands its dictionary on: [cancel_order] through
    its own loop, the others straight to [request] with [verify=True]. *)
Definition send_signed `{FR : FloatRepr} (env : Env) (c : api_call)
    (m : RequestMethod) (path : string) (params : dict) : M json :=
  match c with
  | CallCancelOrder _ _ => cancel_order_loop env 3 path params
  | _ => request env m path (Some params) true
  end.

(** The [recvWindow] entry each signing method sends. *)
Definition recv_window_sent (me : OptionClient) (c : api_call) : option pyval :=
  match c with
  | CallPlaceOrder _ _ _ _ _ _ _ _ | CallCancelOpenOrders _
  | CallGetAccountInfo => Some (PInt (recv_window me))
  | CallGetListenKey | CallExtendListenKey _ => Some (PInt 5000)
  | _ => None
  end.

(** The world after the first lines of [place_order]: the id generator has
    run when no id was supplied, and the clock has been read for the
    [timestamp] entry. *)
Definition after_order_prelude (client_order_id : option string) (w : World)
    : World :=
  match client_order_id with
  | None =>
      {| self := {| api_key := api_key (self w);
                    api_secret := api_secret (self w);
                    host := host (self w);
                    recv_window := recv_window (self w);
                    timeout := timeout (self w);
                    order_count := order_count (self w) + 1;
                    try_counts := try_counts (self w) |};
         ticks := S (S (ticks w)); calls := calls w; trace := trace w |}
  | Some _ =>
      {| self := self w; ticks := S (ticks w); calls := calls w;
         trace := trace w |}
  end.

(** The characters [0-9a-f]. *)
Definition is_lower_hex (c : ascii) : bool :=
  let n := nat_of_ascii c in
  ((48 <=? n)%nat && (n <=? 57)%nat) || ((97 <=? n)%nat && (n <=? 102)%nat).

(** Every character of a string satisfies [p]. *)
Fixpoint string_forall (p : ascii -> bool) (s : string) : bool :=
  match s with
  | EmptyString => true
  | String c s' => p c && string_forall p s'
  end.

(** ** Decimal texts *)

(** The number a string of decimal digits denotes, continuing from [acc]. *)
Fixpoint dec_val (acc : Z) (s : string) : Z :=
  match s with
  | EmptyString => acc
  | String c s' => dec_val (10 * acc + (Z.of_nat (nat_of_ascii c) - 48)) s'
  end.

(** The length of a string, as an integer. *)
Definition len (s : string) : Z := Z.of_nat (String.length s).

(** ** Worlds of the closed examples *)

(** The closed examples of this file run on dictionaries that hold no
    float; this rendering stands in for [repr] there and is never called. *)
Definition example_repr : FloatRepr := fun _ => "nan".

(** The world in which nothing has happened yet to the client [me]. *)
Definition world_of (me : OptionClient) : World :=
  {| self := me; ticks := 0; calls := 0; trace := [] |}.

(** The world of a client built with a key, a secret and the defaults. *)
Definition fresh_world : World :=
  world_of (__init__ (Some "key") (Some "secret") None 5 5).

(** A client built without a secret, and one built with an empty secret. *)
Definition client_without_secret : OptionClient :=
  __init__ (Some "key") None None 5 5.

Definition client_with_empty_secret : OptionClient :=
  __init__ (Some "key") (Some "") None 5 5.

(** A network that answers every call with a 200 and an empty document. *)
Definition env_up : Env :=
  {| clock := fun k => (1600000000000 + Z.of_nat k)%Z;
     network := fun _ => Reply {| status_code := 200; body := Some (JDict []) |} |}.

(** A network that is down: every call times out. *)
Definition env_down : Env :=
  {| clock := fun k => (1600000000000 + Z.of_nat k)%Z;
     network := fun _ => Fails (RequestException "timed out") |}.

(** A network whose first answer is a 404 and whose later answers are 200. *)
Definition env_404_then_200 : Env :=
  {| clock := fun k => (1600000000000 + Z.of_nat k)%Z;
     network := fun k =>
       match k with
       | O => Reply {| status_code := 404;
                       body := Some (JDict [("msg", JStr "not found")]) |}
       | _ => Reply {| status_code := 200; body := Some (JDict []) |}
       end |}.




(** ** What a call does to the client and to the network *)

(** The sleeps among the events. *)
Definition is_sleep (e : event) : bool :=
  match e with ESleep _ => true | _ => false end.

(** The client after [self.order_count += 1]. *)
Definition bump (me : OptionClient) : OptionClient :=
  {| api_key := api_key me;
     api_secret := api_secret me;
     host := host me;
     recv_window := recv_window me;
     timeout := timeout me;
     order_count := order_count me + 1;
     try_counts := try_counts me |}.

(** The calls that take a fresh id from the counter: [place_order] without
    a [client_order_id]. *)
Definition consumes_id (c : api_call) : bool :=
  match c with
  | CallPlaceOrder _ _ _ _ _ None _ _ => true
  | _ => false
  end.

Definition client_after (c : api_call) (me : OptionClient) : OptionClient :=
  if consumes_id c then bump me else me.

(** A computation settles [f] when it leaves the client as [f] makes it
    and issues no HTTP call. *)
Definition settles {A} (f : OptionClient -> OptionClient) (c : M A) : Prop :=
  forall w,
    self (snd (c w)) = f (self w)
    /\ exists events,
         trace (snd (c w)) = (trace w ++ events)%list
         /\ Forall (fun e => is_http e = false) events.

(** A computation sends [f] when it leaves the client as [f] makes it and
    its HTTP calls are at most [try_counts] repetitions of one call. *)
Definition sends {A} (f : OptionClient -> OptionClient) (c : M A) : Prop :=
  forall w,
    self (snd (c w)) = f (self w)
    /\ exists events,
         trace (snd (c w)) = (trace w ++ events)%list
         /\ (count_events is_http events <= Z.to_nat (try_counts (self w)))%nat
         /\ exists call, Forall (fun e => is_http e = true -> e = call) events.

(** The unsigned calls: the public endpoints, and [request] with
    [verify=False]. *)
Definition is_public (c : api_call) : bool :=
  match c with
  | CallRequest _ _ _ verify => negb verify
  | CallGetPing | CallGetServerTime | CallGetOptionInfo | CallGetExchangeInfo
  | CallGetIndex _ | CallGetTicker _ | CallGetMark _ | CallGetOrderBook _ _
  | CallGetKline _ _ _ _ _ | CallGetTrades _ _
  | CallGetHistoricalTrades _ _ _ | CallDeleteListenKey => true
  | _ => false
  end.

(** The signing methods that pass what [request] raises on to their
    caller. *)
Definition passes_errors (c : api_call) : bool :=
  match c with
  | CallGetListenKey | CallExtendListenKey _ | CallGetOrder _ _
  | CallGetOpenOrders _ | CallCancelOpenOrders _ | CallGetAccountInfo => true
  | _ => false
  end.

(** The text [place_order] sends as [newClientOrderId]: the caller's, or a
    fresh one made from the next reading of the clock and the next counter
    value. *)
Definition order_id_sent (env : Env) (client_order_id : option string)
    (w : World) : string :=
  match client_order_id with
  | Some c => c
  | None => client_order_id_text (clock env (ticks w))
                                 (order_count (self w) + 1)
  end.

(** ** One caller after another *)

(** The ids that [n] calls of [get_client_order_id] return when one thread
    makes them one after the other. *)
Fixpoint order_ids_in_turn (env : Env) (n : nat) (w : World) : list string :=
  match n with
  | O => []
  | S n =>
      match get_client_order_id env w with
      | (Return id, w') => id :: order_ids_in_turn env n w'
      | (Throw _, _) => []
      end
  end.

(** The schedule under which [n] threads take their six steps one thread
    after the other, starting with thread [first]. *)
Definition in_turn (first n : nat) : list nat :=
  flat_map (replicate 6) (seq first n).

(** The threads that have returned after [n] calls in turn, the first of
    which found the clock at its [k]-th reading and the counter at [c]. *)
Fixpoint returned_in_turn (clock : nat -> Z) (k : nat) (c : Z) (n : nat)
    : list Threads.thread :=
  match n with
  | O => []
  | S n => Threads.Done (clock k) (c + 1)
           :: returned_in_turn clock (S k) (c + 1) n
  end.

(** ** The URL of a STOP order *)

(** The query string [build_parameters] makes of the dictionary of a STOP
    order: its fields in the order in which [place_order] inserts them,
    [stopPrice] last. *)
Definition stop_order_query `{FR : FloatRepr} (me : OptionClient)
    (symbol : string) (side : OrderSide) (quantity price : pyval)
    (id : string) (t : Z) (stop_price : pyval) : string :=
  join "&" ["symbol=" ++ symbol;
            "side=" ++ OrderSide_value side;
            "type=" ++ OrderType_value STOP;
            "quantity=" ++ py_str quantity;
            "price=" ++ py_str price;
            "recvWindow=" ++ str_int (recv_window me);
            "timestamp=" ++ str_int t;
            "newClientOrderId=" ++ id;
            "stopPrice=" ++ py_str stop_price].

(** The URL of a signed call of [path] with that query string. *)
Definition signed_url_of (me : OptionClient) (secret path query : string)
    : string :=
  (host me ++ path) ++ "?" ++ query ++ "&signature="
  ++ SHA256.hexdigest
       (SHA256.hmac_sha256 (encode_utf8 secret) (encode_utf8 query)).

(** The HTTP call of a STOP order placed in the world [w]. *)
Definition stop_order_call `{FR : FloatRepr} (env : Env) (secret : string)
    (symbol : string) (side : OrderSide) (quantity price : pyval)
    (client_order_id : option string) (stop_price : pyval) (w : World)
    : event :=
  let w' := after_order_prelude client_order_id w in
  EHttp "POST"
    (signed_url_of (self w') secret "/api/v1/order"
       (stop_order_query (self w') symbol side quantity price
          (order_id_sent env client_order_id w)
          (clock env (pred (ticks w'))) stop_price))
    (api_headers (self w')) (timeout (self w')).

(** ** Threads on any clock *)







(** * Properties *)

(** Evaluation is asked for by name ([vm_compute] on closed runs); the
    simplifier leaves the digest, the signer and [request] folded. *)
Arguments SHA256.sha256_Z : simpl never.
Arguments SHA256.hmac_sha256 : simpl never.
Arguments str_int : simpl never.
Arguments client_order_id_text : simpl never.
Arguments build_parameters : simpl never.
Arguments _sign : simpl never.
Arguments request : simpl never.

(** ** The parameter encoder *)

Section EncoderFacts.

Context `{FR : FloatRepr}.

Lemma dict_get_keys (d : dict) (k : string) :
  In k (dict_keys d) -> exists v, dict_get d k = Some v.
Proof.
  induction d as [| [k' v'] d IH]; simpl; [tauto |].
  intros [-> | Hin].
  - rewrite String.eqb_refl. eauto.
  - destruct (String.eqb k' k); eauto.
Qed.

(** The comprehension never meets a missing key: it only asks for keys of
    the dictionary it reads. *)
Lemma rmap_items_ok (d : dict) (keys : list string) :
  (forall k, In k keys -> In k (dict_keys d)) ->
  exists pieces,
    rmap (fun key => rbind (dict_getitem d key)
                           (fun v => Ok (key ++ "=" ++ py_str v))) keys
    = Ok pieces.
Proof.
  induction keys as [| k keys IH]; intros Hsub; cbn [rmap].
  - eauto.
  - destruct (dict_get_keys d k) as [v Hv]; [apply Hsub; now left |].
    destruct IH as [ps Hps]; [intros; apply Hsub; now right |].
    assert (Hk : dict_getitem d k = Ok v) by (unfold dict_getitem; now rewrite Hv).
    rewrite Hk. cbn [rbind]. rewrite Hps. cbn [rbind]. eauto.
Qed.

Lemma build_parameters_total (d : dict) :
  exists q, build_parameters d = Ok q.
Proof.
  unfold build_parameters.
  destruct (rmap_items_ok d (dict_keys d)) as [ps Hps]; [auto |].
  rewrite Hps. simpl. eauto.
Qed.

Lemma build_parameters_empty : build_parameters [] = Ok "".
Proof. reflexivity. Qed.

(** The items are joined in the order the dictionary holds them. *)
Lemma build_parameters_items (d : dict) :
  NoDup (dict_keys d) ->
  build_parameters d
  = Ok (join "&" (map (fun kv => fst kv ++ "=" ++ py_str (snd kv)) d)).
Proof.
  intros Hnd. unfold build_parameters. cbn zeta.
  enough (Hmap : forall keys,
             (forall k v, In (k, v) keys -> dict_get d k = Some v) ->
             rmap (fun key => rbind (dict_getitem d key)
                                    (fun v => Ok (key ++ "=" ++ py_str v)))
                  (map fst keys)
             = Ok (map (fun kv => fst kv ++ "=" ++ py_str (snd kv)) keys)).
  { unfold dict_keys. rewrite (Hmap d); [reflexivity |].
    clear Hmap. induction d as [| [k' v'] d IH]; cbn; [tauto |].
    cbn in Hnd. apply NoDup_cons in Hnd as [Hnot Hnd].
    intros k v [Heq | Hin].
    - injection Heq as -> ->. now rewrite String.eqb_refl.
    - destruct (String.eqb_spec k' k) as [-> | _]; [| now apply IH].
      exfalso. apply Hnot. apply list_elem_of_In.
      change k with (fst (k, v)). now apply in_map. }
  induction keys as [| [k v] keys IH]; intros Hget; cbn [map rmap fst snd];
    [reflexivity |].
  unfold dict_getitem at 1. rewrite (Hget k v) by now left. cbn [rbind].
  rewrite IH by (intros; apply Hget; now right). reflexivity.
Qed.

(** C1 (as the code behaves): the encoder joins the items in insertion
    order. The two dictionaries below hold the same two pairs; the code
    encodes them differently, while the encoder over the sorted keys gives
    one string for both. *)
Lemma build_parameters_keeps_insertion_order :
  build_parameters (dict_of [("b", PInt 1); ("a", PInt 2)]) = Ok "b=1&a=2"
  /\ build_parameters (dict_of [("a", PInt 2); ("b", PInt 1)]) = Ok "a=2&b=1"
  /\ build_parameters_sorted (dict_of [("b", PInt 1); ("a", PInt 2)]) = Ok "a=2&b=1"
  /\ build_parameters_sorted (dict_of [("a", PInt 2); ("b", PInt 1)]) = Ok "a=2&b=1".
Proof. repeat split; reflexivity. Qed.

End EncoderFacts.

Lemma build_parameters_items_witness :
  build_parameters (FR := example_repr)
    [("symbol", PStr "BTCUSDT"); ("limit", PInt 10)]
  = Ok (join "&" (map (fun kv => fst kv ++ "=" ++ py_str (FR := example_repr) (snd kv))
                      [("symbol", PStr "BTCUSDT"); ("limit", PInt 10)])).
Proof.
  apply (build_parameters_items (FR := example_repr)
           [("symbol", PStr "BTCUSDT"); ("limit", PInt 10)]).
  apply NoDup_cons. split.
  - intros Hin. apply elem_of_cons in Hin as [Heq | Hin];
      [discriminate | inversion Hin].
  - apply NoDup_singleton.
Defined.

(** ** The encoder of the specification *)

Section SortedEncoderFacts.

Context `{FR : FloatRepr}.

Lemma string_leb_trans (s1 s2 s3 : string) :
  String.leb s1 s2 = true -> String.leb s2 s3 = true -> String.leb s1 s3 = true.
Proof.
  unfold String.leb. revert s2 s3.
  induction s1 as [| c1 s1 IH]; intros [| c2 s2] [| c3 s3]; cbn;
    try reflexivity; try discriminate.
  unfold Ascii.compare.
  destruct (N.compare_spec (N_of_ascii c1) (N_of_ascii c2)) as [E12 | L12 | G12];
    destruct (N.compare_spec (N_of_ascii c2) (N_of_ascii c3)) as [E23 | L23 | G23];
    destruct (N.compare_spec (N_of_ascii c1) (N_of_ascii c3)) as [E13 | L13 | G13];
    try reflexivity; try discriminate; try lia.
  apply IH.
Qed.

Lemma sort_insert_perm (k : string) (l : list string) :
  sort_insert k l ≡ₚ k :: l.
Proof.
  induction l as [| k' l IH]; cbn; [reflexivity |].
  destruct (String.leb k k'); [reflexivity |].
  rewrite IH. apply perm_swap.
Qed.

Lemma list_sort_perm (l : list string) : list_sort l ≡ₚ l.
Proof.
  induction l as [| k l IH]; cbn; [reflexivity |].
  rewrite sort_insert_perm. now rewrite IH.
Qed.

Lemma sort_insert_sorted (k : string) (l : list string) :
  keys_sorted l -> keys_sorted (sort_insert k l).
Proof.
  induction 1 as [| k' l Hs IH Hall]; cbn.
  - repeat constructor.
  - destruct (String.leb k k') eqn:Hle.
    + constructor; [now constructor |].
      constructor; [assumption |].
      eapply Forall_impl; [exact Hall |].
      intros x Hx. cbn in *. eapply string_leb_trans; eassumption.
    + constructor; [assumption |].
      assert (Hk : String.leb k' k = true).
      { destruct (String.leb_total k k') as [Habs | Hok]; [congruence | assumption]. }
      rewrite (sort_insert_perm k l). constructor; assumption.
Qed.

Lemma list_sort_sorted (l : list string) : keys_sorted (list_sort l).
Proof.
  induction l as [| k l IH]; cbn; [constructor | now apply sort_insert_sorted].
Qed.

(** A list has one sorted arrangement. *)
Lemma keys_sorted_unique (l1 : list string) :
  forall l2, keys_sorted l1 -> keys_sorted l2 -> l1 ≡ₚ l2 -> l1 = l2.
Proof.
  induction l1 as [| a l1 IH]; intros l2 H1 H2 Hperm.
  - now apply Permutation_nil_l in Hperm.
  - destruct l2 as [| b l2]; [now apply Permutation_nil_r in Hperm |].
    apply StronglySorted_inv in H1 as [H1 Ha].
    apply StronglySorted_inv in H2 as [H2 Hb].
    assert (Hab : a = b).
    { assert (Hin_a : a ∈ b :: l2) by (rewrite <- Hperm; left).
      assert (Hin_b : b ∈ a :: l1) by (rewrite Hperm; left).
      rewrite Forall_forall in Ha, Hb.
      apply elem_of_cons in Hin_a as [-> | Hin_a]; [reflexivity |].
      apply elem_of_cons in Hin_b as [-> | Hin_b]; [reflexivity |].
      apply String.leb_antisym; [apply Ha | apply Hb]; assumption. }
    subst b. f_equal. apply IH; try assumption.
    eapply Permutation_cons_inv, Hperm.
Qed.

Lemma list_sort_permutation (l1 l2 : list string) :
  l1 ≡ₚ l2 -> list_sort l1 = list_sort l2.
Proof.
  intros Hperm. apply keys_sorted_unique; try apply list_sort_sorted.
  now rewrite !list_sort_perm.
Qed.

Lemma dict_get_not_key (d : dict) (k : string) :
  k ∉ dict_keys d -> dict_get d k = None.
Proof.
  induction d as [| [k' v'] d IH]; cbn; [reflexivity |].
  intros Hnot. apply not_elem_of_cons in Hnot as [Hne Hnot].
  destruct (String.eqb_spec k' k); [congruence | auto].
Qed.

(** With every key held once, a lookup does not depend on the order of
    the items. *)
Lemma dict_get_permutation (d1 d2 : dict) (k : string) :
  NoDup (dict_keys d1) -> d1 ≡ₚ d2 -> dict_get d1 k = dict_get d2 k.
Proof.
  intros Hnd Hperm. induction Hperm as [| [k' v'] d1 d2 Hp IH
                                        | [k1 v1] [k2 v2] d | d1 d2 d3 Hp1 IH1 Hp2 IH2].
  - reflexivity.
  - cbn. apply NoDup_cons in Hnd as [_ Hnd].
    destruct (String.eqb k' k); [reflexivity | auto].
  - cbn. cbn in Hnd. apply NoDup_cons in Hnd as [Hnot _].
    apply not_elem_of_cons in Hnot as [Hne _].
    destruct (String.eqb_spec k1 k), (String.eqb_spec k2 k);
      try reflexivity. congruence.
  - rewrite IH1 by assumption. apply IH2.
    unfold dict_keys in *. now rewrite <- Hp1.
Qed.

Lemma rmap_ext {A B} (f g : A -> result B) (l : list A) :
  (forall a, f a = g a) -> rmap f l = rmap g l.
Proof.
  intros Hfg. induction l as [| a l IH]; cbn; [reflexivity |].
  now rewrite Hfg, IH.
Qed.

(** The encoder over the sorted keys gives one string for all the
    insertion orders of a parameter set. *)
Lemma build_parameters_sorted_order_free (d1 d2 : dict) :
  NoDup (dict_keys d1) -> d1 ≡ₚ d2 ->
  build_parameters_sorted d1 = build_parameters_sorted d2.
Proof.
  intros Hnd Hperm. unfold build_parameters_sorted.
  assert (Hkeys : list_sort (dict_keys d1) = list_sort (dict_keys d2)).
  { apply list_sort_permutation. unfold dict_keys. now rewrite Hperm. }
  rewrite Hkeys. f_equal. apply rmap_ext. intros key.
  unfold dict_getitem. now rewrite (dict_get_permutation d1 d2 key Hnd Hperm).
Qed.

End SortedEncoderFacts.

(** ** The attempt loop of [request] *)

Section LoopFacts.

Context (env : Env).
Variables (req_method : RequestMethod) (path url : string)
          (headers : list (string * option string)).

Let method := RequestMethod_value req_method.

Lemma request_attempt_run (w : World) :
  request_attempt env req_method path url headers w
  = (Return (outcome_doc (network env (calls w))),
     {| self := self w; ticks := ticks w; calls := S (calls w);
        trace := (trace w ++ attempt_events method path url headers
                               (timeout (self w)) (network env (calls w)))%list |}).
Proof.
  unfold request_attempt, try_except, bind, get_self, requests_request,
    attempt_events, outcome_doc, response_json, print, sleep, emit, ret, throw.
  destruct (network env (calls w)) as [r | e]; cbn.
  - destruct (status_code r =? 200)%Z; destruct (body r); cbn;
      rewrite <- ?app_assoc; reflexivity.
  - rewrite <- ?app_assoc. reflexivity.
Qed.

(** While no attempt yields a document the loop goes on to the next one;
    after [n] fruitless attempts it ends and the method returns [None]. *)
Lemma request_loop_exhausted (n : nat) :
  forall w,
    (forall i, (i < n)%nat -> outcome_doc (network env (calls w + i)) = None) ->
    request_loop env n req_method path url headers w
    = (Return JNull,
       {| self := self w; ticks := ticks w; calls := (calls w + n)%nat;
          trace := (trace w ++ attempts_events env method path url headers
                                 (timeout (self w)) (calls w) n)%list |}).
Proof.
  induction n as [| n IH]; intros w Hnone.
  - cbn. rewrite Nat.add_0_r, app_nil_r. now destruct w.
  - cbn [request_loop]. unfold bind at 1. rewrite request_attempt_run.
    specialize (Hnone 0%nat ltac:(lia)) as H0. rewrite Nat.add_0_r in H0.
    rewrite H0. rewrite IH.
    + cbn. rewrite <- app_assoc. f_equal. f_equal. lia.
    + intros i Hi. cbn. specialize (Hnone (S i) ltac:(lia)).
      now replace (S (calls w + i)) with (calls w + S i)%nat by lia.
Qed.

(** The first attempt that yields a document ends the loop: its document
    is returned and no later attempt is made. *)
Lemma request_loop_first_document (n k : nat) (doc : json) :
  forall w,
    (k < n)%nat ->
    (forall i, (i < k)%nat -> outcome_doc (network env (calls w + i)) = None) ->
    outcome_doc (network env (calls w + k)) = Some doc ->
    request_loop env n req_method path url headers w
    = (Return doc,
       {| self := self w; ticks := ticks w; calls := (calls w + S k)%nat;
          trace := (trace w ++ attempts_events env method path url headers
                                 (timeout (self w)) (calls w) (S k))%list |}).
Proof.
  revert k. induction n as [| n IH]; intros k w Hk Hnone Hdoc; [lia |].
  cbn [request_loop]. unfold bind at 1. rewrite request_attempt_run.
  destruct k as [| k].
  - rewrite Nat.add_0_r in Hdoc. rewrite Hdoc. cbn.
    rewrite app_nil_r. do 2 f_equal. lia.
  - specialize (Hnone 0%nat ltac:(lia)) as H0. rewrite Nat.add_0_r in H0.
    rewrite H0. rewrite (IH k).
    + cbn. rewrite <- app_assoc. f_equal. f_equal. lia.
    + lia.
    + intros i Hi. cbn. specialize (Hnone (S i) ltac:(lia)).
      now replace (S (calls w + i)) with (calls w + S i)%nat by lia.
    + cbn. now replace (S (calls w + k)) with (calls w + S k)%nat by lia.
Qed.

Lemma count_http_attempt (t : Z) (o : outcome) :
  count_events is_http (attempt_events method path url headers t o) = 1%nat.
Proof.
  unfold attempt_events, count_events.
  destruct o as [r | e]; cbn; [| reflexivity].
  destruct (body r); [destruct (status_code r =? 200)%Z |]; reflexivity.
Qed.

Lemma count_events_app (p : event -> bool) (l1 l2 : list event) :
  count_events p (l1 ++ l2) = (count_events p l1 + count_events p l2)%nat.
Proof. unfold count_events. now rewrite filter_app, length_app. Qed.

Lemma count_http_attempts (t : Z) (n : nat) :
  forall k,
    count_events is_http (attempts_events env method path url headers t k n) = n.
Proof.
  induction n as [| n IH]; intros k; cbn [attempts_events]; [reflexivity |].
  rewrite count_events_app, count_http_attempt, IH. reflexivity.
Qed.

End LoopFacts.

(** ** [request]: outcomes of the attempt loop *)

Section RequestFacts.

Context `{FR : FloatRepr} (env : Env).

Lemma not_200_no_doc (o : outcome) : not_200 o -> outcome_doc o = None.
Proof.
  destruct o as [r | e]; cbn; [| reflexivity].
  intros Hne. destruct (Z.eqb_spec (status_code r) 200); [contradiction | reflexivity].
Qed.

Lemma request_run (m : RequestMethod) (path : string) (params : option dict)
    (verify : bool) (url : string) (w : World) :
  request_url (self w) path params verify = Ok url ->
  request env m path params verify w
  = request_loop env (Z.to_nat (try_counts (self w))) m path url
      (api_headers (self w)) w.
Proof.
  intros Hurl. unfold request, bind, get_self. rewrite Hurl. reflexivity.
Qed.

Lemma request_raises (m : RequestMethod) (path : string) (params : option dict)
    (verify : bool) (e : exn) (w : World) :
  request_url (self w) path params verify = Raise e ->
  request env m path params verify w = (Throw (Builtin e), w).
Proof.
  intros Hurl. unfold request, bind, get_self. rewrite Hurl. reflexivity.
Qed.

(** C5: when no attempt of [request] yields an HTTP 200 response (each one
    returns another status or raises in the HTTP library), the method makes
    exactly [try_counts] attempts and then returns [None]: it raises
    nothing, and it reports no failure value. *)
Theorem request_exhausts_attempts (m : RequestMethod) (path : string)
    (params : option dict) (verify : bool) (url : string) (w : World) :
  request_url (self w) path params verify = Ok url ->
  (0 <= try_counts (self w))%Z ->
  (forall i, (i < Z.to_nat (try_counts (self w)))%nat ->
             not_200 (network env (calls w + i))) ->
  exists events,
    request env m path params verify w
    = (Return JNull,
       {| self := self w; ticks := ticks w;
          calls := (calls w + Z.to_nat (try_counts (self w)))%nat;
          trace := (trace w ++ events)%list |})
    /\ Z.of_nat (count_events is_http events) = try_counts (self w).
Proof.
  intros Hurl Hpos Hall.
  eexists. split.
  - rewrite (request_run _ _ _ _ url) by assumption.
    apply request_loop_exhausted.
    intros i Hi. apply not_200_no_doc, Hall, Hi.
  - rewrite count_http_attempts. lia.
Qed.

(** C2 (amended): an attempt that ends without a document, be it a
    response with a status other than 200 or an exception, is followed by
    the next attempt while attempts remain; the first HTTP 200 response
    whose body decodes makes [request] return that document at once, after
    [k + 1] HTTP calls, whatever [try_counts] still allows. The events of
    the run ([attempts_events]) show a sleep of 3 s after an exception and
    none after a status other than 200. *)
Theorem request_returns_first_document (m : RequestMethod) (path : string)
    (params : option dict) (verify : bool) (url : string) (w : World)
    (k : nat) (doc : json) :
  request_url (self w) path params verify = Ok url ->
  (k < Z.to_nat (try_counts (self w)))%nat ->
  (forall i, (i < k)%nat -> outcome_doc (network env (calls w + i)) = None) ->
  outcome_doc (network env (calls w + k)) = Some doc ->
  request env m path params verify w
  = (Return doc,
     {| self := self w; ticks := ticks w; calls := (calls w + S k)%nat;
        trace := (trace w ++ attempts_events env (RequestMethod_value m) path url
                               (api_headers (self w)) (timeout (self w))
                               (calls w) (S k))%list |}).
Proof.
  intros Hurl Hk Hnone Hdoc.
  rewrite (request_run _ _ _ _ url) by assumption.
  now apply request_loop_first_document.
Qed.

End RequestFacts.

(** C2 (as stated) fails: the first attempt of this [get_ping] receives a
    404, and [request] makes a second HTTP call, whose document it
    returns. *)
Lemma request_retries_after_404 :
  network env_404_then_200 (calls fresh_world)
  = Reply {| status_code := 404; body := Some (JDict [("msg", JStr "not found")]) |}
  /\ get_ping (FR := example_repr) env_404_then_200 fresh_world
     = (Return (JDict []),
        {| self := self fresh_world; ticks := 0; calls := 2;
           trace :=
             [ EHttp "GET" "https://testnet.binanceops.com/api/v1/ping"
                 [("X-MBX-APIKEY", Some "key")] 5;
               EPrint (PrintStatus (JDict [("msg", JStr "not found")]) 404);
               EHttp "GET" "https://testnet.binanceops.com/api/v1/ping"
                 [("X-MBX-APIKEY", Some "key")] 5 ] |}).
Proof. split; reflexivity. Qed.

Lemma request_returns_first_document_witness :
  get_ping (FR := example_repr) env_404_then_200 fresh_world
  = (Return (JDict []),
     {| self := self fresh_world; ticks := 0; calls := 2;
        trace := ([] ++ attempts_events env_404_then_200 "GET" "/api/v1/ping"
                          "https://testnet.binanceops.com/api/v1/ping"
                          [("X-MBX-APIKEY", Some "key")] 5 0 2)%list |}).
Proof.
  apply (request_returns_first_document (FR := example_repr) env_404_then_200
           GET "/api/v1/ping" None false
           "https://testnet.binanceops.com/api/v1/ping" fresh_world 1 (JDict [])).
  - reflexivity.
  - vm_compute. lia.
  - intros i Hi. assert (i = 0%nat) as -> by lia. reflexivity.
  - reflexivity.
Defined.

Lemma request_exhausts_attempts_witness :
  exists events,
    get_ping (FR := example_repr) env_down fresh_world
    = (Return JNull,
       {| self := self fresh_world; ticks := 0; calls := 5;
          trace := events |})
    /\ Z.of_nat (count_events is_http events) = 5%Z.
Proof.
  apply (request_exhausts_attempts (FR := example_repr) env_down
           GET "/api/v1/ping" None false
           "https://testnet.binanceops.com/api/v1/ping" fresh_world).
  - reflexivity.
  - vm_compute. discriminate.
  - intros i _. exact I.
Defined.

(** ** The API-key header *)

Section KeyFacts.

Context `{FR : FloatRepr} (env : Env) (key : option string).

Lemma keyed_ret {A} (a : A) : keyed key (ret a).
Proof. intros w Hw. exists []. cbn. now rewrite app_nil_r. Qed.

Lemma keyed_throw {A} (e : error) : keyed key (@throw A e).
Proof. intros w Hw. exists []. cbn. now rewrite app_nil_r. Qed.

Lemma keyed_lift {A} (r : result A) : keyed key (lift r).
Proof. destruct r; [apply keyed_ret | apply keyed_throw]. Qed.

Lemma keyed_bind {A B} (c : M A) (k : A -> M B) :
  keyed key c -> (forall a, keyed key (k a)) -> keyed key (bind c k).
Proof.
  intros Hc Hk w Hw. unfold bind.
  destruct (Hc w Hw) as (ev1 & Ht1 & Hf1 & Hk1).
  destruct (c w) as [[a | e] w1]; cbn in *.
  - destruct (Hk a w1 Hk1) as (ev2 & Ht2 & Hf2 & Hk2).
    exists (ev1 ++ ev2)%list. rewrite Ht2, Ht1, app_assoc.
    split; [reflexivity |]. split; [now apply Forall_app | assumption].
  - exists ev1. auto.
Qed.

Lemma keyed_try_except {A} (c : M A) (h : error -> M A) :
  keyed key c -> (forall e, keyed key (h e)) -> keyed key (try_except c h).
Proof.
  intros Hc Hh w Hw. unfold try_except.
  destruct (Hc w Hw) as (ev1 & Ht1 & Hf1 & Hk1).
  destruct (c w) as [[a | e] w1]; cbn in *.
  - exists ev1. auto.
  - destruct (Hh e w1 Hk1) as (ev2 & Ht2 & Hf2 & Hk2).
    exists (ev1 ++ ev2)%list. rewrite Ht2, Ht1, app_assoc.
    split; [reflexivity |]. split; [now apply Forall_app | assumption].
Qed.

Lemma keyed_get_self : keyed key get_self.
Proof. intros w Hw. exists []. cbn. now rewrite app_nil_r. Qed.

Lemma keyed_set_order_count (n : Z) : keyed key (set_order_count n).
Proof. intros w Hw. exists []. cbn. now rewrite app_nil_r. Qed.

Lemma keyed_get_timestamp : keyed key (get_timestamp env).
Proof. intros w Hw. exists []. cbn. now rewrite app_nil_r. Qed.

Lemma keyed_print (p : printed) : keyed key (print p).
Proof.
  intros w Hw. exists [EPrint p]. cbn. repeat split; auto.
  repeat constructor.
Qed.

Lemma keyed_sleep (n : Z) : keyed key (sleep n).
Proof.
  intros w Hw. exists [ESleep n]. cbn. repeat split; auto.
  repeat constructor.
Qed.

Lemma keyed_requests_request (method url : string) (t : Z) :
  keyed key (requests_request env method url [("X-MBX-APIKEY", key)] t).
Proof.
  intros w Hw. exists [EHttp method url [("X-MBX-APIKEY", key)] t].
  unfold requests_request.
  destruct (network env (calls w)); cbn; repeat split; auto;
    repeat constructor.
Qed.

Lemma keyed_response_json (r : response) : keyed key (response_json r).
Proof.
  unfold response_json. destruct (body r); [apply keyed_ret | apply keyed_throw].
Qed.

End KeyFacts.

Create HintDb keyed.

#[local] Hint Resolve keyed_ret keyed_throw keyed_lift keyed_get_self
  keyed_set_order_count keyed_get_timestamp keyed_print keyed_sleep
  keyed_requests_request keyed_response_json : keyed.

(** Walks through a method body: binds, handlers, branches. *)
Ltac keyed_step :=
  match goal with
  | |- keyed _ (bind _ _) => apply keyed_bind; [| intros ?]
  | |- keyed _ (try_except _ _) => apply keyed_try_except; [| intros ?]
  | |- keyed _ (if ?b then _ else _) => destruct b
  | |- keyed _ (match ?x with _ => _ end) => destruct x
  | |- keyed _ _ => solve [eauto with keyed]
  end.

Section KeyedMethods.

Context `{FR : FloatRepr} (env : Env) (key : option string).

Lemma keyed_request_loop (m : RequestMethod) (path url : string) (n : nat) :
  keyed key (request_loop env n m path url [("X-MBX-APIKEY", key)]).
Proof.
  induction n as [| n IH]; cbn [request_loop]; [apply keyed_ret |].
  apply keyed_bind.
  - unfold request_attempt. repeat keyed_step.
  - intros [doc |]; [apply keyed_ret | exact IH].
Qed.

Lemma keyed_request (m : RequestMethod) (path : string)
    (params : option dict) (verify : bool) :
  keyed key (request env m path params verify).
Proof.
  intros w Hw. unfold request, bind, get_self.
  destruct (request_url (self w) path params verify) as [url | e]; cbn.
  - rewrite Hw. now apply keyed_request_loop.
  - exists []. now rewrite app_nil_r.
Qed.

Lemma keyed_get_client_order_id : keyed key (get_client_order_id env).
Proof. unfold get_client_order_id. repeat keyed_step. Qed.

Lemma keyed_cancel_order_loop (path : string) (params : dict) (n : nat) :
  keyed key (cancel_order_loop env n path params).
Proof.
  induction n as [| n IH]; cbn [cancel_order_loop]; [apply keyed_ret |].
  apply keyed_bind.
  - apply keyed_try_except.
    + apply keyed_bind; [apply keyed_request | intros; apply keyed_ret].
    + intros e. repeat keyed_step.
  - intros [order |]; [apply keyed_ret | exact IH].
Qed.

End KeyedMethods.

#[local] Hint Resolve keyed_request keyed_get_client_order_id
  keyed_cancel_order_loop : keyed.

(** C10: whatever method is called, with whatever arguments, every HTTP
    call it issues carries the header [X-MBX-APIKEY] with the client's
    [api_key] and nothing else; this includes the unsigned endpoints (ping,
    server time, depth, klines), and the key of the client is left as it
    was. *)
Theorem every_http_call_carries_api_key `{FR : FloatRepr} (env : Env)
    (c : api_call) (w : World) :
  exists events,
    trace (snd (invoke env c w)) = (trace w ++ events)%list
    /\ Forall (carries_key (api_key (self w))) events
    /\ api_key (self (snd (invoke env c w))) = api_key (self w).
Proof.
  enough (Hk : keyed (api_key (self w)) (invoke env c)) by now apply Hk.
  generalize (api_key (self w)) as key. intros key.
  destruct c; cbn [invoke];
    unfold get_ping, get_server_time, get_option_info, get_exchange_info,
      get_index, get_ticker, get_mark, get_order_book, get_kline, get_trades,
      get_historical_trades, get_listen_key, get_listen_key_params,
      extend_listen_key, extend_listen_key_params, delete_listen_key,
      place_order, place_order_params, get_order, get_order_params,
      cancel_order, cancel_order_params, get_open_orders,
      get_open_orders_params, cancel_open_orders, cancel_open_orders_params,
      get_account_info, get_account_info_params;
    repeat keyed_step.
Qed.

(** ** The request signer *)

(** The digest and the MAC agree with [hashlib] and [hmac] on the test
    vectors of FIPS 180-2 (one block, two blocks, the empty message) and
    of RFC 4231 (test case 2), and on a key longer than a block. *)
Lemma sha256_test_vectors :
  SHA256.hexdigest (SHA256.sha256 (encode_utf8 "abc"))
  = "ba7816bf8f01cfea414140de5dae2223b00361a396177a9cb410ff61f20015ad"
  /\ SHA256.hexdigest
       (SHA256.sha256
          (encode_utf8 "abcdbcdecdefdefgefghfghighijhijkijkljklmklmnlmnomnopnopq"))
     = "248d6a61d20638b8e5c026930c3e6039a33ce45964ff2167f6ecedd419db06c1"
  /\ SHA256.hexdigest (SHA256.sha256 (encode_utf8 ""))
     = "e3b0c44298fc1c149afbf4c8996fb92427ae41e4649b934ca495991b7852b855"
  /\ SHA256.hexdigest
       (SHA256.hmac_sha256 (encode_utf8 "Jefe")
                           (encode_utf8 "what do ya want for nothing?"))
     = "5bdcc146bf60754e6a042426089575c75a003f089d2739839dec58b964ec3843"
  /\ SHA256.hexdigest
       (SHA256.hmac_sha256
          (repeat (SHA256.byte_of 107) 131)
          (encode_utf8 "Test Using Larger Than Block-Size Key - Hash Key First"))
     = "70e4b005732fa7ff79392aa24fb240159b925dbc9f1398420c0f45e6763dcf14".
Proof. repeat split; vm_compute; reflexivity. Qed.

Section SignerFacts.

Context `{FR : FloatRepr}.

Lemma digest_bytes_length (h : SHA256.regs) :
  length (SHA256.digest_bytes h) = 32%nat.
Proof. reflexivity. Qed.

Lemma hmac_sha256_length (key msg : SHA256.bytes) :
  length (SHA256.hmac_sha256 key msg) = 32%nat.
Proof.
  unfold SHA256.hmac_sha256, SHA256.sha256_Z.
  rewrite length_map. apply digest_bytes_length.
Qed.

Lemma hexdigest_length (bs : SHA256.bytes) :
  String.length (SHA256.hexdigest bs) = (2 * length bs)%nat.
Proof.
  induction bs as [| b bs IH]; cbn [SHA256.hexdigest String.length length];
    [reflexivity | rewrite IH; lia].
Qed.

Lemma hex_char_lower (b : Byte.byte) :
  is_lower_hex (SHA256.hex_char (SHA256.byte_val b / 16)) = true
  /\ is_lower_hex (SHA256.hex_char (SHA256.byte_val b mod 16)) = true.
Proof. destruct b; split; vm_compute; reflexivity. Qed.

Lemma hexdigest_lower_hex (bs : SHA256.bytes) :
  string_forall is_lower_hex (SHA256.hexdigest bs) = true.
Proof.
  induction bs as [| b bs IH]; cbn [SHA256.hexdigest string_forall];
    [reflexivity |].
  destruct (hex_char_lower b) as [-> ->]. exact IH.
Qed.

(** For every parameter dictionary and every non-empty secret, [_sign]
    returns the string [build_parameters] gives for the dictionary,
    followed by [&signature=] and the HMAC-SHA256 of the UTF-8 bytes of
    that string, keyed by the UTF-8 bytes of the secret, as 64 lowercase
    hexadecimal digits. What is signed is the encoded string alone: the
    signature field is appended after it and is no part of the signed
    text. *)
Theorem sign_appends_hmac_of_query_string (me : OptionClient) (params : dict)
    (secret : string) :
  api_secret me = Some secret ->
  secret <> "" ->
  exists query_string hex_digest,
    build_parameters params = Ok query_string
    /\ hex_digest = SHA256.hexdigest
                      (SHA256.hmac_sha256 (encode_utf8 secret)
                                          (encode_utf8 query_string))
    /\ _sign me (Some params) = Ok (query_string ++ "&signature=" ++ hex_digest)
    /\ String.length hex_digest = 64%nat
    /\ string_forall is_lower_hex hex_digest = true.
Proof.
  intros Hsecret _.
  destruct (build_parameters_total params) as [q Hq].
  exists q. eexists. split; [exact Hq |]. split; [reflexivity |].
  split; [| split].
  - unfold _sign. rewrite Hq. cbn [rbind]. rewrite Hsecret. reflexivity.
  - rewrite hexdigest_length, hmac_sha256_length. reflexivity.
  - apply hexdigest_lower_hex.
Qed.

(** C9 (amended): with no secret ([api_secret] is [None]) a request that
    must be signed raises [AttributeError] before anything else happens:
    the world is as it was, so no HTTP call was made. An empty secret is
    not refused: [_sign] returns a signature keyed by the empty key. *)
Theorem sign_fails_only_without_secret (env : Env) (m : RequestMethod)
    (path : string) (params : dict) (w : World) :
  (api_secret (self w) = None ->
   request env m path (Some params) true w
   = (Throw (Builtin (AttributeError "'NoneType' object has no attribute 'encode'")), w))
  /\ (api_secret (self w) = Some "" ->
      exists query_string,
        build_parameters params = Ok query_string
        /\ _sign (self w) (Some params)
           = Ok (query_string ++ "&signature="
                 ++ SHA256.hexdigest
                      (SHA256.hmac_sha256 [] (encode_utf8 query_string)))).
Proof.
  destruct (build_parameters_total params) as [q Hq].
  split; intros Hsecret.
  - apply request_raises. unfold request_url, _sign.
    rewrite Hq, Hsecret. reflexivity.
  - exists q. split; [exact Hq |].
    unfold _sign. rewrite Hq, Hsecret. reflexivity.
Qed.

End SignerFacts.

(** C3 (as the code behaves): the string [_sign] signs and returns is in
    insertion order, since it comes from [build_parameters]. For the
    dictionary of [get_order] the canonical string starts with
    [origClientOrderId]; the code signs and returns the string that starts
    with [symbol]. *)
Lemma sign_signs_insertion_order :
  _sign (FR := example_repr) (self fresh_world)
    (Some (dict_of [("symbol", PStr "BTCUSDT");
                    ("timestamp", PInt 1600000000000);
                    ("origClientOrderId", PStr "id1")]))
  = Ok "symbol=BTCUSDT&timestamp=1600000000000&origClientOrderId=id1&signature=7667458f923facb3c07cc76fd3c599081e2c22e4a236fdea24ae4a54fb316c2d"
  /\ build_parameters_sorted (FR := example_repr)
       (dict_of [("symbol", PStr "BTCUSDT");
                 ("timestamp", PInt 1600000000000);
                 ("origClientOrderId", PStr "id1")])
     = Ok "origClientOrderId=id1&symbol=BTCUSDT&timestamp=1600000000000".
Proof. split; vm_compute; reflexivity. Qed.

(** C9 (as stated) fails: signing with an empty secret raises nothing. The
    signature is the HMAC under the empty key, and the signed request goes
    out on the network. *)
Lemma empty_secret_is_signed_and_sent :
  _sign (FR := example_repr) client_with_empty_secret
    (Some (dict_of [("a", PInt 1)]))
  = Ok "a=1&signature=16e9f8daa620c3475f24e3a38edc51d901f692b9e15b01c3c0681bc671b3e1f2"
  /\ request (FR := example_repr) env_up GET "/api/v1/account"
       (Some (dict_of [("a", PInt 1)])) true (world_of client_with_empty_secret)
     = (Return (JDict []),
        {| self := client_with_empty_secret; ticks := 0; calls := 1;
           trace :=
             [ EHttp "GET"
                 "https://testnet.binanceops.com/api/v1/account?a=1&signature=16e9f8daa620c3475f24e3a38edc51d901f692b9e15b01c3c0681bc671b3e1f2"
                 [("X-MBX-APIKEY", Some "key")] 5 ] |}).
Proof. split; vm_compute; reflexivity. Qed.

Lemma sign_fails_only_without_secret_witness :
  request (FR := example_repr) env_up GET "/api/v1/account"
    (Some (dict_of [("a", PInt 1)])) true (world_of client_without_secret)
  = (Throw (Builtin (AttributeError "'NoneType' object has no attribute 'encode'")),
     world_of client_without_secret)
  /\ exists query_string,
       build_parameters (FR := example_repr) (dict_of [("a", PInt 1)])
       = Ok query_string
       /\ _sign (FR := example_repr) client_with_empty_secret
            (Some (dict_of [("a", PInt 1)]))
          = Ok (query_string ++ "&signature="
                ++ SHA256.hexdigest
                     (SHA256.hmac_sha256 [] (encode_utf8 query_string))).
Proof.
  split.
  - apply (sign_fails_only_without_secret (FR := example_repr) env_up GET
             "/api/v1/account" (dict_of [("a", PInt 1)])
             (world_of client_without_secret)).
    reflexivity.
  - apply (sign_fails_only_without_secret (FR := example_repr) env_up GET
             "/api/v1/account" (dict_of [("a", PInt 1)])
             (world_of client_with_empty_secret)).
    reflexivity.
Defined.

(** ** Order placement *)

Section OrderFacts.

Context `{FR : FloatRepr} (env : Env).

Lemma float_le0_not_gt0 (f : float) :
  PrimFloat.leb f 0%float = true -> PrimFloat.ltb 0%float f = false.
Proof.
  rewrite leb_spec, ltb_spec.
  replace (Prim2SF 0%float) with (S754_zero false) by reflexivity.
  unfold SFleb, SFltb.
  destruct (Prim2SF f) as [s | s | | s m e]; cbn;
    try destruct s; try discriminate; reflexivity.
Qed.

Lemma py_le0_not_gt0 (v : pyval) :
  py_le0 v = true -> py_gt0 v = Ok false.
Proof.
  destruct v as [| z | f | s]; cbn; try discriminate.
  - intros Hle. f_equal. lia.
  - intros Hle. f_equal. now apply float_le0_not_gt0.
Qed.

(** A MARKET order whose price is falsy ([0], [0.0], [None], an empty
    string) keeps its [price] entry: [params.get('price')] is then falsy
    and the [del] is skipped. *)
Lemma market_order_keeps_falsy_price (symbol : string) (side : OrderSide)
    (quantity price : pyval) (client_order_id : option string)
    (time_inforce : string) (stop_price : pyval) (w : World) :
  py_truthy price = false ->
  exists params,
    place_order_params env symbol side MARKET quantity price client_order_id
      time_inforce stop_price w
    = (Return params, after_order_prelude client_order_id w)
    /\ dict_get params "price" = Some price.
Proof.
  intros Hfalsy.
  unfold place_order_params, bind, get_client_order_id, get_self,
    set_order_count, get_timestamp, ret, after_order_prelude.
  destruct client_order_id as [c |]; cbn; unfold dict_get_truthy; cbn;
    rewrite Hfalsy; eexists; split; reflexivity.
Qed.

(** A MARKET order whose price is truthy goes out without a [price]
    entry. *)
Lemma market_order_drops_truthy_price (symbol : string) (side : OrderSide)
    (quantity price : pyval) (client_order_id : option string)
    (time_inforce : string) (stop_price : pyval) (w : World) :
  py_truthy price = true ->
  exists params,
    place_order_params env symbol side MARKET quantity price client_order_id
      time_inforce stop_price w
    = (Return params, after_order_prelude client_order_id w)
    /\ dict_get params "price" = None.
Proof.
  intros Htruthy.
  unfold place_order_params, bind, get_client_order_id, get_self,
    set_order_count, get_timestamp, ret, after_order_prelude.
  destruct client_order_id as [c |]; cbn; unfold dict_get_truthy; cbn;
    rewrite Htruthy; eexists; split; reflexivity.
Qed.

End OrderFacts.

(** C7 (as the code behaves): a MARKET order placed with a price of [0]
    goes out with [price=0] in its query string. *)
Lemma market_order_with_zero_price_sends_price :
  place_order (FR := example_repr) env_up "BTC-200730-9000-C" BUY MARKET
    (PInt 1) (PInt 0) (Some "id1") "GTC" (PInt 0) fresh_world
  = (Return (JDict []),
     {| self := self fresh_world; ticks := 1; calls := 1;
        trace :=
          [ EHttp "POST"
              "https://testnet.binanceops.com/api/v1/order?symbol=BTC-200730-9000-C&side=BUY&type=MARKET&quantity=1&price=0&recvWindow=10000&timestamp=1600000000000&newClientOrderId=id1&signature=85f0039bff052f5d4dc430d9d2a2dbae3b6abbaaed413e4cc3e13f5e1bf06c50"
              [("X-MBX-APIKEY", Some "key")] 5 ] |}).
Proof. vm_compute. reflexivity. Qed.

(** ** Enumerated choices *)

(** An order-book request whose [limit] is not one of 10, 20, 50, 100 and
    1000 is the request with [limit=10]; a supported limit is sent as it
    is. *)
Theorem order_book_limit_falls_back `{FR : FloatRepr} (env : Env)
    (symbol : string) (limit : Z) (w : World) :
  Z_in limit [10; 20; 50; 100; 1000]%Z = false ->
  get_order_book env symbol limit w = get_order_book env symbol 10 w.
Proof.
  intros Hout. unfold get_order_book. cbn zeta. rewrite Hout. reflexivity.
Qed.

Lemma order_book_limit_falls_back_witness :
  get_order_book (FR := example_repr) env_up "BTC-200730-9000-C" 7 fresh_world
  = (Return (JDict []),
     {| self := self fresh_world; ticks := 0; calls := 1;
        trace :=
          [ EPrint (PrintParams [("symbol", PStr "BTC-200730-9000-C");
                                 ("limit", PInt 10)]);
            EHttp "GET"
              "https://testnet.binanceops.com/api/v1/depth?symbol=BTC-200730-9000-C&limit=10"
              [("X-MBX-APIKEY", Some "key")] 5 ] |}).
Proof.
  rewrite (order_book_limit_falls_back (FR := example_repr) env_up
             "BTC-200730-9000-C" 7 fresh_world eq_refl).
  vm_compute. reflexivity.
Defined.

(** ** Signed requests *)

Section SignedFacts.

Context `{FR : FloatRepr} (env : Env).

Lemma invoke_signed (c : api_call) (m : RequestMethod) (path : string)
    (build : M dict) :
  signed_request env c = Some (m, path, build) ->
  invoke env c = bind build (fun params => send_signed env c m path params).
Proof.
  destruct c; cbn [signed_request]; intros Hc; inversion Hc; subst;
    reflexivity.
Qed.

(** With [verify=True] the URL ends in the encoded dictionary followed by
    the signature field, computed over the encoded dictionary. *)
Lemma signed_url (me : OptionClient) (path : string) (params : dict)
    (secret : string) :
  api_secret me = Some secret ->
  exists q,
    build_parameters params = Ok q
    /\ request_url me path (Some params) true
       = Ok ((host me ++ path) ++ "?" ++ q ++ "&signature="
             ++ SHA256.hexdigest
                  (SHA256.hmac_sha256 (encode_utf8 secret) (encode_utf8 q))).
Proof.
  intros Hsecret. destruct (build_parameters_total params) as [q Hq].
  exists q. split; [exact Hq |].
  unfold request_url, _sign. rewrite Hq. cbn [rbind]. rewrite Hsecret.
  reflexivity.
Qed.

Lemma init_recv_window (k s h : option string) (t n : Z) :
  recv_window (__init__ k s h t n) = 10000%Z.
Proof. reflexivity. Qed.

(** C6 (amended): every signing method puts a [timestamp] entry in its
    dictionary, holding the reading of the millisecond clock it has just
    taken, and hands the dictionary to [request] with [verify=True], so
    that the query string ends in a [signature] field computed over the
    encoding of the dictionary. [recvWindow] is the client's [recv_window]
    (10000 from the constructor) for [place_order], [cancel_open_orders]
    and [get_account_info]; it is 5000 for the two listen-key methods; and
    [get_order], [cancel_order] and [get_open_orders] send none. *)
Theorem signed_requests_carry_timestamp (c : api_call) (m : RequestMethod)
    (path : string) (build : M dict) (w w' : World) (params : dict) :
  signed_request env c = Some (m, path, build) ->
  build w = (Return params, w') ->
  (ticks w < ticks w')%nat
  /\ dict_get params "timestamp" = Some (PInt (clock env (pred (ticks w'))))
  /\ dict_get params "recvWindow" = recv_window_sent (self w) c
  /\ invoke env c w = send_signed env c m path params w'
  /\ (forall secret,
        api_secret (self w') = Some secret ->
        exists q,
          build_parameters params = Ok q
          /\ request_url (self w') path (Some params) true
             = Ok ((host (self w') ++ path) ++ "?" ++ q ++ "&signature="
                   ++ SHA256.hexdigest
                        (SHA256.hmac_sha256 (encode_utf8 secret)
                                            (encode_utf8 q)))).
Proof.
  intros Hc Hbuild.
  assert (Hsend : invoke env c w = send_signed env c m path params w').
  { rewrite (invoke_signed c m path build Hc). unfold bind.
    now rewrite Hbuild. }
  assert (Hurl : forall secret,
            api_secret (self w') = Some secret ->
            exists q,
              build_parameters params = Ok q
              /\ request_url (self w') path (Some params) true
                 = Ok ((host (self w') ++ path) ++ "?" ++ q ++ "&signature="
                       ++ SHA256.hexdigest
                            (SHA256.hmac_sha256 (encode_utf8 secret)
                                                (encode_utf8 q))))
    by (intros secret Hs; now apply signed_url).
  enough ((ticks w < ticks w')%nat
          /\ dict_get params "timestamp" = Some (PInt (clock env (pred (ticks w'))))
          /\ dict_get params "recvWindow" = recv_window_sent (self w) c)
    by tauto.
  clear Hsend Hurl.
  destruct c; cbn [signed_request] in Hc; inversion Hc; subst; clear Hc;
    cbn [recv_window_sent].
  - (* get_listen_key *)
    inversion Hbuild; subst; cbn. repeat split; auto.
  - (* extend_listen_key *)
    inversion Hbuild; subst; cbn. repeat split; auto.
  - (* place_order *)
    unfold place_order_params, bind, get_client_order_id, get_self,
      set_order_count, get_timestamp, ret, throw, lift in Hbuild.
    destruct client_order_id as [cid |], order_type; cbn in Hbuild;
      unfold dict_get_truthy in Hbuild; cbn in Hbuild;
      try (destruct (py_truthy price); cbn in Hbuild);
      try (destruct stop_price as [| z | f | s]; cbn in Hbuild;
           try discriminate;
           match type of Hbuild with
           | context [if ?b then _ else _] => destruct b
           end; cbn in Hbuild; try discriminate);
      inversion Hbuild; subst; cbn; repeat split; auto.
  - (* get_order *)
    inversion Hbuild; subst; cbn. repeat split; auto.
  - (* cancel_order *)
    inversion Hbuild; subst; cbn. repeat split; auto.
  - (* get_open_orders *)
    unfold get_open_orders_params, bind, get_timestamp, ret in Hbuild.
    destruct symbol as [s |]; cbn in Hbuild;
      [destruct (String.eqb s "") eqn:Hs; cbn in Hbuild |];
      inversion Hbuild; subst; cbn; repeat split; auto.
  - (* cancel_open_orders *)
    inversion Hbuild; subst; cbn. repeat split; auto.
  - (* get_account_info *)
    inversion Hbuild; subst; cbn. repeat split; auto.
Qed.

End SignedFacts.

(** C6 (as stated) fails: [get_order] sends no [recvWindow], and
    [get_listen_key] sends 5000, not 10000. *)
Lemma get_order_sends_no_recv_window :
  get_order (FR := example_repr) env_up "BTCUSDT" "id1" fresh_world
  = (Return (JDict []),
     {| self := self fresh_world; ticks := 1; calls := 1;
        trace :=
          [ EHttp "GET"
              "https://testnet.binanceops.com/api/v1/order?symbol=BTCUSDT&timestamp=1600000000000&origClientOrderId=id1&signature=7667458f923facb3c07cc76fd3c599081e2c22e4a236fdea24ae4a54fb316c2d"
              [("X-MBX-APIKEY", Some "key")] 5 ] |})
  /\ fst (get_order_params env_up "BTCUSDT" "id1" fresh_world)
     = Return [("symbol", PStr "BTCUSDT"); ("timestamp", PInt 1600000000000);
               ("origClientOrderId", PStr "id1")]
  /\ fst (get_listen_key_params env_up fresh_world)
     = Return [("recvWindow", PInt 5000); ("timestamp", PInt 1600000000000)].
Proof. repeat split; vm_compute; reflexivity. Qed.

Lemma signed_requests_carry_timestamp_witness :
  (ticks fresh_world < 1)%nat
  /\ dict_get [("timestamp", PInt 1600000000000); ("recvWindow", PInt 10000)]
       "timestamp"
     = Some (PInt (clock env_up 0))
  /\ dict_get [("timestamp", PInt 1600000000000); ("recvWindow", PInt 10000)]
       "recvWindow"
     = Some (PInt 10000).
Proof.
  pose proof (signed_requests_carry_timestamp (FR := example_repr) env_up
                CallGetAccountInfo GET "/api/v1/account"
                (get_account_info_params env_up) fresh_world
                {| self := self fresh_world; ticks := 1; calls := 0; trace := [] |}
                [("timestamp", PInt 1600000000000); ("recvWindow", PInt 10000)]
                eq_refl eq_refl) as (Ht & Hts & Hrw & _).
  exact (conj Ht (conj Hts Hrw)).
Defined.

(** ** Decimal texts *)

Section DecimalFacts.

Lemma string_app_nil_r (s : string) : s ++ "" = s.
Proof. induction s as [| c s IH]; cbn; [reflexivity | now rewrite IH]. Qed.

Lemma string_app_assoc (s1 s2 s3 : string) :
  (s1 ++ s2) ++ s3 = s1 ++ s2 ++ s3.
Proof. induction s1 as [| c s1 IH]; cbn; [reflexivity | now rewrite IH]. Qed.

Lemma string_length_app (s1 s2 : string) :
  String.length (s1 ++ s2) = (String.length s1 + String.length s2)%nat.
Proof. induction s1 as [| c s1 IH]; cbn; [reflexivity | now rewrite IH]. Qed.

Lemma len_app (s1 s2 : string) : len (s1 ++ s2) = (len s1 + len s2)%Z.
Proof. unfold len. rewrite string_length_app. lia. Qed.


(** Two concatenations that agree, with first parts of one length, agree
    part by part. *)
Lemma string_app_inj (s1 s1' s2 s2' : string) :
  String.length s1 = String.length s1' ->
  s1 ++ s2 = s1' ++ s2' -> s1 = s1' /\ s2 = s2'.
Proof.
  revert s1'. induction s1 as [| c s1 IH]; intros [| c' s1'] Hlen Heq;
    cbn in *; try discriminate.
  - auto.
  - injection Heq as -> Heq. injection Hlen as Hlen.
    destruct (IH s1' Hlen Heq) as [-> ->]. auto.
Qed.

Lemma dec_val_app (s1 s2 : string) :
  forall acc, dec_val acc (s1 ++ s2) = dec_val (dec_val acc s1) s2.
Proof. induction s1 as [| c s1 IH]; intros acc; cbn; [reflexivity | apply IH]. Qed.

Lemma digit_char_code (d : Z) :
  (0 <= d < 10)%Z -> (Z.of_nat (nat_of_ascii (digit_char d)) - 48 = d)%Z.
Proof.
  intros Hd. unfold digit_char. rewrite nat_ascii_embedding by lia. lia.
Qed.

(** What [str_digits] writes in front of [acc]: the digits of [n], as many
    as [n] needs. *)
Lemma str_digits_spec (fuel : nat) :
  forall n acc,
    (0 <= n < 10 ^ Z.of_nat fuel)%Z ->
    (0 < fuel)%nat ->
    exists ds,
      str_digits fuel n acc = ds ++ acc
      /\ (forall a, dec_val a ds = a * 10 ^ len ds + n)%Z
      /\ (0 < len ds)%Z
      /\ (n < 10 ^ len ds)%Z
      /\ (0 < n -> 10 ^ (len ds - 1) <= n)%Z.
Proof.
  induction fuel as [| fuel IH]; intros n acc Hn Hfuel; [lia |].
  cbn [str_digits].
  destruct (Z.ltb_spec n 10) as [Hlt | Hge].
  - exists (String (digit_char (n mod 10)) "").
    rewrite Z.mod_small by lia.
    split; [reflexivity |]. split; [| split; [| split]].
    + intros a. cbn [dec_val]. rewrite digit_char_code by lia.
      unfold len. cbn. lia.
    + unfold len. cbn. lia.
    + unfold len. cbn. lia.
    + unfold len. cbn. lia.
  - assert (Hfuel' : (0 < fuel)%nat).
    { destruct fuel; [| lia]. cbn in Hn. lia. }
    destruct (IH (n / 10)%Z (String (digit_char (n mod 10)) acc))
      as (ds & Heq & Hval & Hlen & Hub & Hlb); [| assumption |].
    { split; [apply Z.div_pos; lia |].
      apply Z.div_lt_upper_bound; [lia |].
      replace (10 * 10 ^ Z.of_nat fuel)%Z with (10 ^ Z.of_nat (S fuel))%Z; [lia |].
      rewrite Nat2Z.inj_succ, Z.pow_succ_r by lia. reflexivity. }
    exists (ds ++ String (digit_char (n mod 10)) "").
    assert (Hmod : (0 <= n mod 10 < 10)%Z) by (apply Z.mod_pos_bound; lia).
    assert (Hdiv : (n = 10 * (n / 10) + n mod 10)%Z) by (apply Z.div_mod; lia).
    assert (Hlen' : (len (ds ++ String (digit_char (n mod 10)) "") = len ds + 1)%Z).
    { rewrite len_app. unfold len. cbn. lia. }
    split; [| split; [| split; [| split]]].
    + rewrite Heq, string_app_assoc. reflexivity.
    + intros a. rewrite dec_val_app, Hval. cbn [dec_val].
      rewrite digit_char_code by assumption.
      rewrite Hlen', Z.pow_add_r by lia. lia.
    + lia.
    + rewrite Hlen', Z.pow_add_r by lia. lia.
    + intros _. rewrite Hlen'. replace (len ds + 1 - 1)%Z with (len ds - 1 + 1)%Z by lia.
      rewrite Z.pow_add_r by lia.
      assert (0 < n / 10)%Z by (apply Z.div_str_pos; lia).
      specialize (Hlb ltac:(lia)). lia.
Qed.

Lemma str_nonneg_fuel (n : Z) :
  (0 <= n)%Z -> (n < 10 ^ Z.of_nat (S (Z.to_nat (Z.log2 n))))%Z.
Proof.
  intros Hn.
  rewrite Nat2Z.inj_succ, Z2Nat.id by apply Z.log2_nonneg.
  destruct (Z.eq_dec n 0) as [-> | Hne]; [cbn; lia |].
  assert (Hlog : (n < 2 ^ Z.succ (Z.log2 n))%Z) by (apply Z.log2_spec; lia).
  assert (Hpow : (2 ^ Z.succ (Z.log2 n) <= 10 ^ Z.succ (Z.log2 n))%Z).
  { apply Z.pow_le_mono_l. lia. }
  lia.
Qed.

(** [str(n)] for [n >= 0] denotes [n] and has exactly the digits [n]
    needs. *)
Lemma str_int_spec (n : Z) :
  (0 <= n)%Z ->
  dec_val 0 (str_int n) = n
  /\ (0 < len (str_int n))%Z
  /\ (n < 10 ^ len (str_int n))%Z
  /\ (0 < n -> 10 ^ (len (str_int n) - 1) <= n)%Z.
Proof.
  intros Hn. unfold str_int.
  destruct (Z.ltb_spec n 0) as [Hneg | _]; [lia |].
  unfold str_nonneg.
  destruct (str_digits_spec (S (Z.to_nat (Z.log2 n))) n "")
    as (ds & Heq & Hval & Hlen & Hub & Hlb).
  - split; [assumption | now apply str_nonneg_fuel].
  - lia.
  - rewrite Heq, string_app_nil_r.
    repeat split; try assumption. rewrite Hval. lia.
Qed.

Lemma str_int_inj (a b : Z) :
  (0 <= a)%Z -> (0 <= b)%Z -> str_int a = str_int b -> a = b.
Proof.
  intros Ha Hb Heq.
  destruct (str_int_spec a Ha) as (Hva & _).
  destruct (str_int_spec b Hb) as (Hvb & _).
  rewrite <- Hva, <- Hvb, Heq. reflexivity.
Qed.

Lemma str_int_len_mono (a b : Z) :
  (0 <= a <= b)%Z -> (len (str_int a) <= len (str_int b))%Z.
Proof.
  intros [Ha Hab].
  destruct (str_int_spec a Ha) as (_ & Hla & _ & Hlb).
  destruct (str_int_spec b ltac:(lia)) as (_ & Hlb' & Hub & _).
  destruct (Z.eq_dec a 0) as [-> | Hne].
  - assert (Hzero : len (str_int 0) = 1%Z) by reflexivity. lia.
  - specialize (Hlb ltac:(lia)).
    destruct (Z_le_gt_dec (len (str_int a)) (len (str_int b))) as [| Hgt];
      [assumption |].
    assert (10 ^ len (str_int b) <= 10 ^ (len (str_int a) - 1))%Z
      by (apply Z.pow_le_mono_r; lia).
    lia.
Qed.

(** A later reading of a clock that does not run backwards, followed by a
    larger counter, never spells the text of an earlier pair. *)
Lemma client_order_id_text_distinct (t1 c1 t2 c2 : Z) :
  (0 <= t1 <= t2)%Z -> (0 <= c1 < c2)%Z ->
  client_order_id_text t1 c1 <> client_order_id_text t2 c2.
Proof.
  intros Ht Hc Heq. unfold client_order_id_text in Heq.
  apply (string_app_inj "x-A6SIDXVS" "x-A6SIDXVS") in Heq; [| reflexivity].
  destruct Heq as [_ Heq].
  pose proof (str_int_len_mono t1 t2 Ht) as Hlt.
  pose proof (str_int_len_mono c1 c2 ltac:(lia)) as Hlc.
  assert (Hsum : (len (str_int t1) + len (str_int c1)
                  = len (str_int t2) + len (str_int c2))%Z)
    by (rewrite <- !len_app, Heq; reflexivity).
  apply string_app_inj in Heq; [| unfold len in *; lia].
  destruct Heq as [_ Heq]. apply str_int_inj in Heq; lia.
Qed.

End DecimalFacts.

(** ** [get_client_order_id] under threads *)

Section ThreadFacts.

Import Threads.

Variable clock : nat -> Z.
Variable c0 : Z.

Hypothesis clock_fine : clock_ok clock.



















(** *** Progress *)







End ThreadFacts.

(** ** One caller *)

Section OneCaller.

Context `{FR : FloatRepr} (env : Env).

Lemma init_order_count (k s h : option string) (t n : Z) :
  order_count (__init__ k s h t n) = 1000000%Z.
Proof. reflexivity. Qed.

(** Called by one thread, [get_client_order_id] adds one to the counter,
    reads the clock once, and returns the text of the reading and of the
    new counter value. *)
Lemma get_client_order_id_run (w : World) :
  get_client_order_id env w
  = (Return (client_order_id_text (clock env (ticks w))
                                  (order_count (self w) + 1)),
     {| self := {| api_key := api_key (self w);
                   api_secret := api_secret (self w);
                   host := host (self w);
                   recv_window := recv_window (self w);
                   timeout := timeout (self w);
                   order_count := order_count (self w) + 1;
                   try_counts := try_counts (self w) |};
        ticks := S (ticks w); calls := calls w; trace := trace w |}).
Proof. reflexivity. Qed.

(** The threaded model with a single thread does the same. *)
Lemma one_thread_run (c0 : Z) (k0 : nat) :
  Threads.run (clock env) [0; 0; 0; 0; 0; 0]%nat (Threads.init c0 k0 1)
  = Some {| Threads.order_count := c0 + 1;
            Threads.locked := false;
            Threads.ticks := S k0;
            Threads.pool := [Threads.Done (clock env k0) (c0 + 1)] |}.
Proof. reflexivity. Qed.

End OneCaller.

(** ** What [request] raises *)

Section RaiseFacts.

Context `{FR : FloatRepr} (env : Env).

Lemma attempt_events_one_call (method path url : string)
    (headers : list (string * option string)) (t : Z) (o : outcome) :
  Forall (fun e => is_http e = true -> e = EHttp method url headers t)
         (attempt_events method path url headers t o).
Proof.
  unfold attempt_events. constructor; [reflexivity |].
  destruct o as [r | e]; [destruct (body r); [destruct (status_code r =? 200)%Z |] |];
    repeat constructor; discriminate.
Qed.

(** The loop of [request] returns, whatever the network does; its HTTP
    calls are at most [n], all of them the same call. *)
Lemma request_loop_sends (m : RequestMethod) (path url : string)
    (headers : list (string * option string)) (n : nat) :
  forall w,
    exists doc events,
      request_loop env n m path url headers w
      = (Return doc,
         {| self := self w; ticks := ticks w;
            calls := (calls w + count_events is_http events)%nat;
            trace := (trace w ++ events)%list |})
      /\ (count_events is_http events <= n)%nat
      /\ Forall (fun e => is_http e = true ->
                          e = EHttp (RequestMethod_value m) url headers
                                (timeout (self w)))
                events.
Proof.
  induction n as [| n IH]; intros w.
  - exists JNull, []. cbn. rewrite Nat.add_0_r, app_nil_r.
    split; [now destruct w |]. split; [lia | constructor].
  - cbn [request_loop]. unfold bind at 1. rewrite request_attempt_run.
    set (ev := attempt_events (RequestMethod_value m) path url headers
                 (timeout (self w)) (network env (calls w))).
    assert (Hone : count_events is_http ev = 1%nat)
      by apply count_http_attempt.
    destruct (outcome_doc (network env (calls w))) as [doc |].
    + exists doc, ev. unfold ret. rewrite Hone.
      split; [do 2 f_equal; lia |]. split; [lia |].
      apply attempt_events_one_call.
    + match goal with
      | |- context [request_loop env n m path url headers ?w1] =>
          destruct (IH w1) as (doc & evs & Hrun & Hcount & Hsame)
      end.
      exists doc, (ev ++ evs)%list. rewrite Hrun.
      cbn [self ticks calls trace] in *.
      rewrite count_events_app, Hone, app_assoc.
      split; [do 2 f_equal; lia |]. split; [lia |].
      apply Forall_app. split; [apply attempt_events_one_call | exact Hsame].
Qed.

(** When the URL cannot be built. *)
Lemma request_url_raises (me : OptionClient) (path : string)
    (params : option dict) (verify : bool) :
  (exists e, request_url me path params verify = Raise e)
  <-> verify = true /\ (params = None \/ api_secret me = None).
Proof.
  unfold request_url, _sign. split.
  - intros [e He]. destruct verify.
    + split; [reflexivity |].
      destruct params as [d |]; [| now left]. right.
      destruct (build_parameters_total d) as [q Hq].
      rewrite Hq in He. cbn in He.
      destruct (api_secret me); [discriminate | reflexivity].
    + exfalso. destruct params as [[| kv d] |]; cbn in He; try discriminate.
      destruct (build_parameters_total (kv :: d)) as [q Hq].
      rewrite Hq in He. discriminate.
  - intros [-> [-> | Hs]]; [eauto |].
    destruct params as [d |]; [| eauto].
    destruct (build_parameters_total d) as [q Hq].
    rewrite Hq, Hs. cbn. eauto.
Qed.

Lemma request_raise_cases (m : RequestMethod)
    (path : string) (params : option dict) (verify : bool) (w : World) :
  (verify = true /\ (params = None \/ api_secret (self w) = None) ->
   exists what,
     request env m path params verify w
     = (Throw (Builtin (AttributeError what)), w))
  /\ (~ (verify = true /\ (params = None \/ api_secret (self w) = None)) ->
      exists doc, fst (request env m path params verify w) = Return doc).
Proof.
  split.
  - intros Hcase.
    destruct (proj2 (request_url_raises (self w) path params verify) Hcase)
      as [e He].
    assert (Hattr : exists what, e = AttributeError what).
    { destruct Hcase as [-> _]. unfold request_url, _sign in He.
      destruct params as [d |]; [| injection He as <-; eauto].
      destruct (build_parameters_total d) as [q Hq]. rewrite Hq in He.
      cbn in He. destruct (api_secret (self w)); [discriminate |].
      injection He as <-. eauto. }
    destruct Hattr as [what ->]. exists what. now apply request_raises.
  - intros Hnot.
    destruct (request_url (self w) path params verify) as [url | e] eqn:Hurl.
    + rewrite (request_run env m path params verify url w Hurl).
      destruct (request_loop_sends m path url (api_headers (self w))
                  (Z.to_nat (try_counts (self w))) w)
        as (doc & evs & Hrun & _).
      exists doc. now rewrite Hrun.
    + exfalso. apply Hnot.
      apply (proj1 (request_url_raises (self w) path params verify)). eauto.
Qed.

(** [request] raises exactly when it has to sign and has no dictionary or
    no secret to do it with. It then raises an [AttributeError] before its
    first attempt, leaving everything as it was; in every other case it
    returns, whatever the network does. *)
Theorem request_raises_only_unsigned_material (m : RequestMethod)
    (path : string) (params : option dict) (verify : bool) (w : World) :
  (verify = true /\ (params = None \/ api_secret (self w) = None) ->
   exists what,
     request env m path params verify w
     = (Throw (Builtin (AttributeError what)), w))
  /\ (~ (verify = true /\ (params = None \/ api_secret (self w) = None)) ->
      exists doc, fst (request env m path params verify w) = Return doc).
Proof. apply request_raise_cases. Qed.

End RaiseFacts.

Lemma request_raises_only_unsigned_material_witness :
  (exists what,
     request (FR := example_repr) env_up GET "/api/v1/account" None true
       fresh_world
     = (Throw (Builtin (AttributeError what)), fresh_world))
  /\ exists doc,
       fst (request (FR := example_repr) env_down GET "/api/v1/account"
              (Some (dict_of [("a", PInt 1)])) true fresh_world)
       = Return doc.
Proof.
  split.
  - apply (request_raises_only_unsigned_material (FR := example_repr) env_up
             GET "/api/v1/account" None true fresh_world).
    split; [reflexivity | now left].
  - apply (request_raises_only_unsigned_material (FR := example_repr) env_down
             GET "/api/v1/account" (Some (dict_of [("a", PInt 1)])) true
             fresh_world).
    intros [_ [Hp | Hs]]; discriminate.
Defined.

(** ** What a call does to the client and to the network *)

Section SettleFacts.

Context `{FR : FloatRepr} (env : Env).

Lemma settles_ret {A} (a : A) : settles id (ret a).
Proof.
  intros w. split; [reflexivity |]. exists []. cbn.
  now rewrite app_nil_r.
Qed.

Lemma settles_throw {A} (e : error) : settles id (@throw A e).
Proof.
  intros w. split; [reflexivity |]. exists []. cbn.
  now rewrite app_nil_r.
Qed.

Lemma settles_lift {A} (r : result A) : settles id (lift r).
Proof. destruct r; [apply settles_ret | apply settles_throw]. Qed.

Lemma settles_get_self : settles id get_self.
Proof.
  intros w. split; [reflexivity |]. exists []. cbn.
  now rewrite app_nil_r.
Qed.

Lemma settles_get_timestamp : settles id (get_timestamp env).
Proof.
  intros w. split; [reflexivity |]. exists []. cbn.
  now rewrite app_nil_r.
Qed.

Lemma settles_print (p : printed) : settles id (print p).
Proof.
  intros w. split; [reflexivity |]. exists [EPrint p]. cbn.
  split; [reflexivity | repeat constructor].
Qed.

Lemma settles_set_order_count (n : Z) (f : OptionClient -> OptionClient) :
  (forall w, f (self w) = self (snd (set_order_count n w))) ->
  settles f (set_order_count n).
Proof.
  intros Hf w. split; [now rewrite Hf |]. exists []. cbn.
  now rewrite app_nil_r.
Qed.

(** A first part that may change the client, then parts that do not. *)
Lemma settles_bind {A B} (f : OptionClient -> OptionClient) (c : M A)
    (k : A -> M B) :
  settles f c -> (forall a, settles id (k a)) -> settles f (bind c k).
Proof.
  intros Hc Hk w. unfold bind.
  destruct (Hc w) as (Hs1 & ev1 & Ht1 & Hf1).
  destruct (c w) as [[a | e] w1]; cbn in *.
  - destruct (Hk a w1) as (Hs2 & ev2 & Ht2 & Hf2). cbn in Hs2.
    split; [congruence |].
    exists (ev1 ++ ev2)%list. rewrite Ht2, Ht1, app_assoc.
    split; [reflexivity | now apply Forall_app].
  - split; [assumption |]. exists ev1. auto.
Qed.

Lemma settles_get_client_order_id : settles bump (get_client_order_id env).
Proof.
  intros w. rewrite get_client_order_id_run. cbn.
  split; [reflexivity |]. exists []. now rewrite app_nil_r.
Qed.

End SettleFacts.

Create HintDb settles.

#[local] Hint Resolve settles_ret settles_throw settles_lift settles_get_self
  settles_get_timestamp settles_print settles_get_client_order_id : settles.

(** Walks through the body of a method that issues no HTTP call. *)
Ltac settles_step :=
  match goal with
  | |- settles _ (bind _ _) => apply settles_bind; [| intros ?]
  | |- settles _ (if ?b then _ else _) => destruct b
  | |- settles _ (match ?x with _ => _ end) => destruct x
  | |- settles _ _ => solve [eauto with settles]
  end.

Section SendFacts.

Context `{FR : FloatRepr} (env : Env).

Lemma bump_try_counts (me : OptionClient) : try_counts (bump me) = try_counts me.
Proof. reflexivity. Qed.

Lemma sends_request (m : RequestMethod) (path : string)
    (params : option dict) (verify : bool) :
  sends id (request env m path params verify).
Proof.
  intros w.
  destruct (request_url (self w) path params verify) as [url | e] eqn:Hurl.
  - rewrite (request_run env m path params verify url w Hurl).
    destruct (request_loop_sends env m path url (api_headers (self w))
                (Z.to_nat (try_counts (self w))) w)
      as (doc & evs & Hrun & Hcount & Hsame).
    rewrite Hrun. cbn. split; [reflexivity |]. eauto.
  - rewrite (request_raises env m path params verify e w Hurl). cbn.
    split; [reflexivity |]. exists []. rewrite app_nil_r.
    split; [reflexivity |]. split; [cbn; lia |].
    exists (ESleep 0). constructor.
Qed.

(** A part without HTTP calls, then a part that sends. *)
Lemma sends_bind {A B} (f : OptionClient -> OptionClient) (c : M A)
    (k : A -> M B) :
  (forall me, try_counts (f me) = try_counts me) ->
  settles f c -> (forall a, sends id (k a)) -> sends f (bind c k).
Proof.
  intros Hf Hc Hk w. unfold bind.
  destruct (Hc w) as (Hs1 & ev1 & Ht1 & Hf1).
  assert (Hnone : count_events is_http ev1 = 0%nat).
  { clear Ht1. unfold count_events.
    induction Hf1 as [| e l He _ IH]; [reflexivity |].
    rewrite filter_cons_False by congruence. exact IH. }
  destruct (c w) as [[a | e] w1]; cbn in *.
  - destruct (Hk a w1) as (Hs2 & ev2 & Ht2 & Hc2 & call & Hsame). cbn in Hs2.
    split; [congruence |].
    exists (ev1 ++ ev2)%list. rewrite Ht2, Ht1, app_assoc.
    split; [reflexivity |].
    rewrite Hs1, Hf in Hc2.
    split; [rewrite count_events_app, Hnone; exact Hc2 |].
    exists call. apply Forall_app. split; [| exact Hsame].
    eapply Forall_impl; [exact Hf1 |]. cbn. intros x Hx Hy. congruence.
  - split; [assumption |]. exists ev1. split; [assumption |].
    split; [lia |]. exists (ESleep 0).
    eapply Forall_impl; [exact Hf1 |]. cbn. intros x Hx Hy. congruence.
Qed.

Lemma sends_settles {A} (f : OptionClient -> OptionClient) (c : M A) :
  settles f c -> sends f c.
Proof.
  intros Hc w. destruct (Hc w) as (Hs & ev & Ht & Hf).
  split; [assumption |]. exists ev. split; [assumption |].
  assert (Hnone : count_events is_http ev = 0%nat).
  { clear Ht. unfold count_events.
    induction Hf as [| e l He _ IH]; [reflexivity |].
    rewrite filter_cons_False by congruence. exact IH. }
  split; [lia |]. exists (ESleep 0).
  eapply Forall_impl; [exact Hf |]. cbn. intros x Hx Hy. congruence.
Qed.

(** One turn of the loop of [cancel_order]. *)
Lemma cancel_order_loop_step (path : string) (params : dict) (n : nat)
    (w : World) :
  cancel_order_loop env (S n) path params w
  = match request env DELETE path (Some params) true w with
    | (Return order, w') => (Return order, w')
    | (Throw e, w') =>
        cancel_order_loop env n path params
          {| self := self w'; ticks := ticks w'; calls := calls w';
             trace := (trace w' ++ [EPrint (PrintCancelError e)])%list |}
    end.
Proof.
  cbn [cancel_order_loop]. unfold bind, try_except, print, emit, ret.
  destruct (request env DELETE path (Some params) true w) as [[order | e] w'];
    reflexivity.
Qed.

(** [cancel_order] repeats [request] only when [request] has raised, that
    is, when no HTTP call has been made yet. *)
Lemma sends_cancel_order_loop (path : string) (params : dict) (n : nat) :
  sends id (cancel_order_loop env n path params).
Proof.
  induction n as [| n IH]; [apply sends_settles, settles_ret |].
  intros w. rewrite cancel_order_loop_step.
  destruct (request_url (self w) path (Some params) true) as [url | e] eqn:Hurl.
  - rewrite (request_run env DELETE path (Some params) true url w Hurl).
    destruct (request_loop_sends env DELETE path url (api_headers (self w))
                (Z.to_nat (try_counts (self w))) w)
      as (doc & evs & Hrun & Hcount & Hsame).
    rewrite Hrun. cbn [fst snd self trace]. split; [reflexivity |]. eauto.
  - rewrite (request_raises env DELETE path (Some params) true e w Hurl).
    match goal with
    | |- context [cancel_order_loop env n path params ?w1] =>
        destruct (IH w1) as (Hs & evs & Ht & Hc & call & Hsame)
    end.
    cbn [self trace] in Hs, Ht, Hc. split; [exact Hs |].
    exists (EPrint (PrintCancelError (Builtin e)) :: evs).
    rewrite Ht, <- app_assoc. split; [reflexivity |].
    split; [exact Hc |]. exists call.
    constructor; [discriminate | exact Hsame].
Qed.

End SendFacts.

Create HintDb sends.

#[local] Hint Resolve sends_request sends_cancel_order_loop : sends.

Section CallFacts.

Context `{FR : FloatRepr} (env : Env).

Lemma settles_place_order_params (symbol : string) (side : OrderSide)
    (order_type : OrderType) (quantity price : pyval)
    (client_order_id : option string) (time_inforce : string)
    (stop_price : pyval) :
  settles (match client_order_id with Some _ => id | None => bump end)
    (place_order_params env symbol side order_type quantity price
       client_order_id time_inforce stop_price).
Proof.
  unfold place_order_params.
  apply settles_bind; [destruct client_order_id; eauto with settles |].
  intros cid. repeat settles_step.
Qed.

(** Every method leaves the client as it found it, except that
    [place_order] takes one id from the counter when none is supplied; and
    the HTTP calls of one method call are at most [try_counts], all of them
    the same call. *)
Lemma invoke_sends (c : api_call) : sends (client_after c) (invoke env c).
Proof.
  unfold client_after.
  destruct c; cbn [invoke consumes_id].
  16:{ destruct client_order_id as [cid |]; unfold place_order;
       [apply (sends_bind id) | apply (sends_bind bump)];
       try reflexivity; try (intros; apply sends_request).
       - exact (settles_place_order_params symbol order_side order_type
                  quantity price (Some cid) time_inforce stop_price).
       - exact (settles_place_order_params symbol order_side order_type
                  quantity price None time_inforce stop_price). }
  all: unfold get_ping, get_server_time, get_option_info, get_exchange_info,
      get_index, get_ticker, get_mark, get_order_book, get_kline, get_trades,
      get_historical_trades, get_listen_key, get_listen_key_params,
      extend_listen_key, extend_listen_key_params, delete_listen_key,
      get_order, get_order_params,
      cancel_order, cancel_order_params, get_open_orders,
      get_open_orders_params, cancel_open_orders, cancel_open_orders_params,
      get_account_info, get_account_info_params;
    cbv zeta;
    first
      [ apply sends_request
      | apply sends_settles; solve [repeat settles_step]
      | apply (sends_bind id);
        [ reflexivity
        | solve [repeat settles_step]
        | intros; first [apply sends_request | apply sends_cancel_order_loop] ] ].
Qed.

End CallFacts.

(** No endpoint method, and no call of [request], changes an attribute of
    the client, with one exception: [place_order] called without a
    [client_order_id] adds one to [order_count] (through
    [get_client_order_id]), also when the order is then refused. *)
Theorem methods_leave_client_unchanged `{FR : FloatRepr} (env : Env)
    (c : api_call) (w : World) :
  self (snd (invoke env c w)) = client_after c (self w).
Proof. apply invoke_sends. Qed.

(** One call of an endpoint method, or of [request], makes at most
    [try_counts] HTTP calls; [cancel_order], which may call [request] three
    times, is no exception. *)
Theorem http_calls_bounded_by_try_counts `{FR : FloatRepr} (env : Env)
    (c : api_call) (w : World) :
  exists events,
    trace (snd (invoke env c w)) = (trace w ++ events)%list
    /\ (count_events is_http events <= Z.to_nat (try_counts (self w)))%nat.
Proof.
  destruct (invoke_sends env c w) as (_ & evs & Ht & Hc & _). eauto.
Qed.

(** The HTTP calls of one call of an endpoint method, or of [request], are
    all the same call: a retry sends
    the verb, the URL (with its timestamp and signature), the headers and
    the timeout of the first attempt again. *)
Theorem retries_repeat_the_first_call `{FR : FloatRepr} (env : Env)
    (c : api_call) (w : World) :
  exists events call,
    trace (snd (invoke env c w)) = (trace w ++ events)%list
    /\ Forall (fun e => is_http e = true -> e = call) events.
Proof.
  destruct (invoke_sends env c w) as (_ & evs & Ht & _ & call & Hsame). eauto.
Qed.

(** ** Which calls raise *)

Section WhoRaises.

Context `{FR : FloatRepr} (env : Env).

Lemma request_unsigned_returns (m : RequestMethod) (path : string)
    (params : option dict) (w : World) :
  exists doc, fst (request env m path params false w) = Return doc.
Proof.
  apply (request_raise_cases env m path params false w).
  intros [Habs _]. discriminate.
Qed.

(** The public endpoints, and [request] itself when it does not sign,
    never raise: they return a document, or [None]. *)
Theorem public_calls_never_raise (c : api_call) (w : World) :
  is_public c = true ->
  exists doc, fst (invoke env c w) = Return doc.
Proof.
  destruct c; cbn [is_public invoke]; intros Hpub; try discriminate;
    unfold get_ping, get_server_time, get_option_info, get_exchange_info,
      get_index, get_ticker, get_mark, get_order_book, get_kline, get_trades,
      get_historical_trades, delete_listen_key;
    cbv zeta; try apply request_unsigned_returns.
  - destruct verify; [discriminate | apply request_unsigned_returns].
  - exists JNull. reflexivity.
Qed.

Lemma request_url_without_secret (me : OptionClient) (path : string)
    (params : dict) :
  api_secret me = None ->
  request_url me path (Some params) true
  = Raise (AttributeError "'NoneType' object has no attribute 'encode'").
Proof.
  intros Hs. unfold request_url, _sign.
  destruct (build_parameters_total params) as [q Hq].
  rewrite Hq, Hs. reflexivity.
Qed.

Lemma request_signed_returns (m : RequestMethod) (path : string)
    (params : dict) (w : World) :
  api_secret (self w) <> None ->
  exists doc, fst (request env m path (Some params) true w) = Return doc.
Proof.
  intros Hs.
  apply (request_raise_cases env m path (Some params) true w).
  intros [_ [Habs | Habs]]; [discriminate | contradiction].
Qed.

(** [get_order], [get_open_orders], [cancel_open_orders],
    [get_account_info] and the listen-key methods raise exactly when the
    client has no secret: then an [AttributeError], with no HTTP call made;
    with a secret they return, whatever the network does. *)
Theorem signed_calls_raise_without_secret (c : api_call) (w : World) :
  passes_errors c = true ->
  (api_secret (self w) = None ->
   fst (invoke env c w)
   = Throw (Builtin (AttributeError "'NoneType' object has no attribute 'encode'"))
   /\ calls (snd (invoke env c w)) = calls w
   /\ trace (snd (invoke env c w)) = trace w)
  /\ (api_secret (self w) <> None ->
      exists doc, fst (invoke env c w) = Return doc).
Proof.
  intros Hc.
  destruct c; cbn [passes_errors] in Hc; try discriminate; cbn [invoke];
    unfold get_listen_key, get_listen_key_params, extend_listen_key,
      extend_listen_key_params, get_order, get_order_params, get_open_orders,
      get_open_orders_params, cancel_open_orders, cancel_open_orders_params,
      get_account_info, get_account_info_params;
    cbv zeta; unfold bind at 1;
    unfold bind, get_timestamp, get_self, ret; cbn [fst snd];
    (split;
     [ intros Hs; erewrite request_raises
         by (apply request_url_without_secret; exact Hs);
       repeat split; reflexivity
     | intros Hs; apply request_signed_returns; exact Hs ]).
Qed.

(** [cancel_order] never raises. Whatever [request] raises is printed and
    the call is tried again, three times in all; without a secret this
    ends in [None] after three printed errors and no HTTP call. *)
Theorem cancel_order_never_raises (symbol client_order_id : string)
    (w : World) :
  (exists doc, fst (cancel_order env symbol client_order_id w) = Return doc)
  /\ (api_secret (self w) = None ->
      cancel_order env symbol client_order_id w
      = (Return JNull,
         {| self := self w; ticks := S (ticks w); calls := calls w;
            trace :=
              (trace w
               ++ repeat
                    (EPrint
                       (PrintCancelError
                          (Builtin
                             (AttributeError
                                "'NoneType' object has no attribute 'encode'"))))
                    3)%list |})).
Proof.
  unfold cancel_order, cancel_order_params. cbv zeta.
  unfold bind at 1. unfold bind, get_timestamp, ret. cbn [fst snd].
  split.
  - generalize 3%nat as n.
    match goal with
    | |- forall n, exists doc, fst (cancel_order_loop env n ?p ?d ?w1) = _ =>
        generalize w1; generalize d
    end.
    intros d w1 n. revert w1.
    induction n as [| n IH]; intros w1; [exists JNull; reflexivity |].
    rewrite cancel_order_loop_step.
    destruct (request env DELETE "/api/v1/order" (Some d) true w1)
      as [[order | e] w2]; [exists order; reflexivity | apply IH].
  - intros Hs.
    repeat (rewrite cancel_order_loop_step;
            erewrite request_raises
              by (apply request_url_without_secret; exact Hs);
            cbn [self ticks calls trace]).
    cbn [cancel_order_loop repeat]. unfold ret.
    rewrite <- !app_assoc. reflexivity.
Qed.

(** With a secret, [cancel_order] calls [request] once and returns what it
    returns: the loop of three turns repeats a call that raised, not one
    that came back with [None] after all its attempts had failed. *)
Theorem cancel_order_requests_once (symbol client_order_id : string)
    (w : World) :
  api_secret (self w) <> None ->
  cancel_order env symbol client_order_id w
  = (params <- cancel_order_params env symbol client_order_id ;;
     request env DELETE "/api/v1/order" (Some params) true) w.
Proof.
  intros Hs. unfold cancel_order, cancel_order_params. cbv zeta.
  unfold bind at 1 3. unfold bind, get_timestamp, ret.
  rewrite cancel_order_loop_step.
  match goal with
  | |- context [request env DELETE ?p ?d true ?w1] =>
      destruct (request_signed_returns DELETE p
                  (match d with Some d' => d' | None => [] end) w1 Hs)
        as [doc Hdoc];
      cbn iota in Hdoc;
      destruct (request env DELETE p d true w1) as [[order | e] w2]
  end; [reflexivity | discriminate].
Qed.

End WhoRaises.

Lemma public_calls_never_raise_witness :
  exists doc,
    fst (invoke (FR := example_repr) env_down
           (CallGetKline "BTC-200730-9000-C" {| Interval_value := "1m" |}
              None None 500)
           (world_of client_without_secret))
    = Return doc.
Proof.
  apply (public_calls_never_raise (FR := example_repr) env_down
           (CallGetKline "BTC-200730-9000-C" {| Interval_value := "1m" |}
              None None 500)
           (world_of client_without_secret)).
  reflexivity.
Defined.

Lemma signed_calls_raise_without_secret_witness :
  (fst (invoke (FR := example_repr) env_up (CallGetOrder "BTCUSDT" "id1")
          (world_of client_without_secret))
   = Throw (Builtin (AttributeError "'NoneType' object has no attribute 'encode'"))
   /\ calls (snd (invoke (FR := example_repr) env_up
                    (CallGetOrder "BTCUSDT" "id1")
                    (world_of client_without_secret)))
      = calls (world_of client_without_secret)
   /\ trace (snd (invoke (FR := example_repr) env_up
                    (CallGetOrder "BTCUSDT" "id1")
                    (world_of client_without_secret)))
      = trace (world_of client_without_secret))
  /\ exists doc,
       fst (invoke (FR := example_repr) env_down (CallGetOrder "BTCUSDT" "id1")
              fresh_world)
       = Return doc.
Proof.
  split.
  - apply (signed_calls_raise_without_secret (FR := example_repr) env_up
             (CallGetOrder "BTCUSDT" "id1") (world_of client_without_secret)
             eq_refl).
    reflexivity.
  - apply (signed_calls_raise_without_secret (FR := example_repr) env_down
             (CallGetOrder "BTCUSDT" "id1") fresh_world eq_refl).
    discriminate.
Defined.

Lemma cancel_order_never_raises_witness :
  cancel_order (FR := example_repr) env_up "BTCUSDT" "id1"
    (world_of client_without_secret)
  = (Return JNull,
     {| self := client_without_secret; ticks := 1; calls := 0;
        trace :=
          ([] ++ repeat
                   (EPrint
                      (PrintCancelError
                         (Builtin
                            (AttributeError
                               "'NoneType' object has no attribute 'encode'"))))
                   3)%list |}).
Proof.
  apply (cancel_order_never_raises (FR := example_repr) env_up "BTCUSDT" "id1"
           (world_of client_without_secret)).
  reflexivity.
Defined.

(** ** Attempts and sleeps *)

Section AttemptFacts.

Context `{FR : FloatRepr} (env : Env).

(** With a [try_counts] of zero or less the loop of [request] has no turn:
    the method returns [None] at once, and nothing goes out. *)
Theorem request_without_attempts (m : RequestMethod) (path : string)
    (params : option dict) (verify : bool) (url : string) (w : World) :
  (try_counts (self w) <= 0)%Z ->
  request_url (self w) path params verify = Ok url ->
  request env m path params verify w = (Return JNull, w).
Proof.
  intros Hn Hurl. rewrite (request_run env m path params verify url w Hurl).
  replace (Z.to_nat (try_counts (self w))) with 0%nat by lia. reflexivity.
Qed.

Lemma sleeps_of_failed_attempts (method path url : string)
    (headers : list (string * option string)) (t : Z) (n : nat) :
  forall k,
    (forall i, (i < n)%nat -> exists e, network env (k + i) = Fails e) ->
    count_events is_sleep (attempts_events env method path url headers t k n) = n
    /\ Forall (fun e => is_sleep e = true -> e = ESleep 3)
              (attempts_events env method path url headers t k n).
Proof.
  induction n as [| n IH]; intros k Hall; cbn [attempts_events].
  - split; [reflexivity | constructor].
  - destruct (Hall 0%nat ltac:(lia)) as [e He]. rewrite Nat.add_0_r in He.
    destruct (IH (S k)) as [Hcount Hthree].
    { intros i Hi. destruct (Hall (S i) ltac:(lia)) as [e' He'].
      exists e'. now replace (S k + i)%nat with (k + S i)%nat by lia. }
    rewrite He. unfold attempt_events. split.
    + rewrite count_events_app, Hcount. reflexivity.
    + apply Forall_app. split; [| exact Hthree].
      repeat constructor; discriminate.
Qed.

(** When every attempt ends in an exception of the HTTP library, [request]
    sleeps three seconds after each of them, the last one included, before
    it returns [None]. *)
Theorem request_sleeps_after_every_failure (m : RequestMethod) (path : string)
    (params : option dict) (verify : bool) (url : string) (w : World) :
  request_url (self w) path params verify = Ok url ->
  (0 <= try_counts (self w))%Z ->
  (forall i, (i < Z.to_nat (try_counts (self w)))%nat ->
             exists e, network env (calls w + i) = Fails e) ->
  exists events,
    request env m path params verify w
    = (Return JNull,
       {| self := self w; ticks := ticks w;
          calls := (calls w + Z.to_nat (try_counts (self w)))%nat;
          trace := (trace w ++ events)%list |})
    /\ Z.of_nat (count_events is_sleep events) = try_counts (self w)
    /\ Forall (fun e => is_sleep e = true -> e = ESleep 3) events.
Proof.
  intros Hurl Hpos Hall.
  eexists. split.
  - rewrite (request_run env m path params verify url w Hurl).
    apply request_loop_exhausted.
    intros i Hi. destruct (Hall i Hi) as [e ->]. reflexivity.
  - destruct (sleeps_of_failed_attempts (RequestMethod_value m) path url
                (api_headers (self w)) (timeout (self w))
                (Z.to_nat (try_counts (self w))) (calls w) Hall)
      as [Hcount Hthree].
    split; [rewrite Hcount; lia | exact Hthree].
Qed.

End AttemptFacts.

Lemma request_without_attempts_witness :
  get_ping (FR := example_repr) env_up
    (world_of (__init__ (Some "key") (Some "secret") None 5 0))
  = (Return JNull, world_of (__init__ (Some "key") (Some "secret") None 5 0)).
Proof.
  apply (request_without_attempts (FR := example_repr) env_up GET
           "/api/v1/ping" None false
           "https://testnet.binanceops.com/api/v1/ping"
           (world_of (__init__ (Some "key") (Some "secret") None 5 0))).
  - cbn. lia.
  - reflexivity.
Defined.

Lemma request_sleeps_after_every_failure_witness :
  exists events,
    get_ping (FR := example_repr) env_down fresh_world
    = (Return JNull,
       {| self := self fresh_world; ticks := 0; calls := 5;
          trace := events |})
    /\ Z.of_nat (count_events is_sleep events) = 5%Z
    /\ Forall (fun e => is_sleep e = true -> e = ESleep 3) events.
Proof.
  apply (request_sleeps_after_every_failure (FR := example_repr) env_down
           GET "/api/v1/ping" None false
           "https://testnet.binanceops.com/api/v1/ping" fresh_world).
  - reflexivity.
  - vm_compute. discriminate.
  - intros i _. eexists. reflexivity.
Defined.

(** ** Optional and enumerated arguments *)

Section ArgumentFacts.

Context `{FR : FloatRepr} (env : Env).

Lemma request_empty_params (m : RequestMethod) (path : string) (w : World) :
  request env m path (Some []) false w = request env m path None false w.
Proof. unfold request, request_url. reflexivity. Qed.

(** An optional argument that is absent is left out of the query.
    [get_ticker] and [get_mark] without a symbol send no query string at
    all, as a call without parameters does; [get_kline] treats a start or
    end time of [0] as absent; [get_open_orders] treats an empty symbol as
    absent, while [get_ticker] sends an empty symbol as [symbol=]. *)
Theorem absent_arguments_are_left_out (w : World) :
  get_ticker env None w = request env GET "/api/v1/ticker" None false w
  /\ get_mark env None w = request env GET "/api/v1/mark" None false w
  /\ (forall symbol interval end_time limit,
        get_kline env symbol interval (Some 0%Z) end_time limit w
        = get_kline env symbol interval None end_time limit w)
  /\ (forall symbol interval start_time limit,
        get_kline env symbol interval start_time (Some 0%Z) limit w
        = get_kline env symbol interval start_time None limit w)
  /\ get_open_orders env (Some "") w = get_open_orders env None w
  /\ get_ticker env (Some "") w
     = request env GET "/api/v1/ticker" (Some [("symbol", PStr "")]) false w.
Proof.
  repeat split; intros;
    unfold get_ticker, get_mark; try apply request_empty_params; reflexivity.
Qed.

(** A [limit] outside the supported values is replaced by the default:
    500 for [get_kline] (supported: 500, 1500), 100 for [get_trades] and
    [get_historical_trades] (supported: 100, 500). *)
Theorem unsupported_limits_fall_back (symbol : string) (interval : Interval)
    (start_time end_time from_id : option Z) (limit : Z) (w : World) :
  (Z_in limit [500; 1500]%Z = false ->
   get_kline env symbol interval start_time end_time limit w
   = get_kline env symbol interval start_time end_time 500 w)
  /\ (Z_in limit [100; 500]%Z = false ->
      get_trades env symbol limit w = get_trades env symbol 100 w
      /\ get_historical_trades env symbol from_id limit w
         = get_historical_trades env symbol from_id 100 w).
Proof.
  split; intros Hout; [| split];
    unfold get_kline, get_trades, get_historical_trades; cbv zeta;
    rewrite Hout; reflexivity.
Qed.

End ArgumentFacts.

Lemma unsupported_limits_fall_back_witness :
  get_kline (FR := example_repr) env_up "BTC-200730-9000-C"
    {| Interval_value := "1m" |} None None 1000 fresh_world
  = get_kline (FR := example_repr) env_up "BTC-200730-9000-C"
      {| Interval_value := "1m" |} None None 500 fresh_world
  /\ get_trades (FR := example_repr) env_up "BTC-200730-9000-C" 1000 fresh_world
     = get_trades (FR := example_repr) env_up "BTC-200730-9000-C" 100 fresh_world
  /\ get_historical_trades (FR := example_repr) env_up "BTC-200730-9000-C"
       None 1000 fresh_world
     = get_historical_trades (FR := example_repr) env_up "BTC-200730-9000-C"
         None 100 fresh_world.
Proof.
  split.
  - apply (unsupported_limits_fall_back (FR := example_repr) env_up
             "BTC-200730-9000-C" {| Interval_value := "1m" |} None None None
             1000 fresh_world).
    reflexivity.
  - apply (unsupported_limits_fall_back (FR := example_repr) env_up
             "BTC-200730-9000-C" {| Interval_value := "1m" |} None None None
             1000 fresh_world).
    reflexivity.
Defined.

(** ** The dictionary of an order *)

Section OrderShape.

Context `{FR : FloatRepr} (env : Env).

(** Whenever [place_order] gets as far as [request], its dictionary holds
    the symbol, the side, the type and the quantity as given, the caller's
    order id or a freshly generated one, [timeInForce] for a LIMIT order
    and for no other, [stopPrice] for a STOP order and for no other, and
    the price as given unless the order is a MARKET order. *)
Theorem order_parameters (symbol : string) (side : OrderSide)
    (order_type : OrderType) (quantity price : pyval)
    (client_order_id : option string) (time_inforce : string)
    (stop_price : pyval) (w w' : World) (params : dict) :
  place_order_params env symbol side order_type quantity price
    client_order_id time_inforce stop_price w
  = (Return params, w') ->
  w' = after_order_prelude client_order_id w
  /\ dict_get params "symbol" = Some (PStr symbol)
  /\ dict_get params "side" = Some (PStr (OrderSide_value side))
  /\ dict_get params "type" = Some (PStr (OrderType_value order_type))
  /\ dict_get params "quantity" = Some quantity
  /\ dict_get params "newClientOrderId"
     = Some (PStr (order_id_sent env client_order_id w))
  /\ dict_get params "timeInForce"
     = (if OrderType_eqb order_type LIMIT then Some (PStr time_inforce)
        else None)
  /\ dict_get params "stopPrice"
     = (if OrderType_eqb order_type STOP then Some stop_price else None)
  /\ (OrderType_eqb order_type MARKET = false ->
      dict_get params "price" = Some price).
Proof.
  intros Hbuild.
  unfold place_order_params, bind, get_client_order_id, get_self,
    set_order_count, get_timestamp, ret, throw, lift in Hbuild.
  unfold order_id_sent, after_order_prelude.
  destruct client_order_id as [cid |], order_type; cbn in Hbuild;
    unfold dict_get_truthy in Hbuild; cbn in Hbuild;
    try (destruct (py_truthy price); cbn in Hbuild);
    try (destruct stop_price as [| z | f | s]; cbn in Hbuild;
         try discriminate;
         match type of Hbuild with
         | context [if ?b then _ else _] => destruct b
         end; cbn in Hbuild; try discriminate);
    inversion Hbuild; subst; cbn; repeat split; auto; discriminate.
Qed.

(** The stop price matters to STOP orders only. For a LIMIT or a MARKET
    order it is neither checked nor sent, whatever it is; for a STOP order
    a stop price that is not a number ([None], a string) raises
    [TypeError], with the network untouched. *)
Theorem stop_price_matters_to_stop_orders_only (symbol : string)
    (side : OrderSide) (order_type : OrderType) (quantity price : pyval)
    (client_order_id : option string) (time_inforce : string)
    (stop_price : pyval) (w : World) :
  (order_type <> STOP ->
   exists params,
     place_order_params env symbol side order_type quantity price
       client_order_id time_inforce stop_price w
     = (Return params, after_order_prelude client_order_id w)
     /\ dict_get params "stopPrice" = None
     /\ place_order_params env symbol side order_type quantity price
          client_order_id time_inforce (PInt 0) w
        = (Return params, after_order_prelude client_order_id w))
  /\ (order_type = STOP ->
      (stop_price = PNone \/ exists s, stop_price = PStr s) ->
      exists what,
        place_order env symbol side order_type quantity price
          client_order_id time_inforce stop_price w
        = (Throw (Builtin (TypeError what)),
           after_order_prelude client_order_id w)).
Proof.
  split.
  - intros Hne.
    unfold place_order_params, bind, get_client_order_id, get_self,
      set_order_count, get_timestamp, ret, after_order_prelude.
    destruct order_type; [| | contradiction];
      destruct client_order_id as [cid |]; cbn;
      unfold dict_get_truthy; cbn;
      try destruct (py_truthy price); cbn;
      eexists; repeat split; reflexivity.
  - intros -> Hbad.
    unfold place_order, place_order_params, bind, get_client_order_id,
      get_self, set_order_count, get_timestamp, ret, after_order_prelude.
    destruct Hbad as [-> | [s ->]];
      destruct client_order_id as [cid |]; cbn; eexists; reflexivity.
Qed.

(** [get_client_order_id] never returns a text again: called in a later
    state of the client (a larger counter, no fewer readings of the clock)
    it returns a text that differs from the earlier one, provided the
    clock reads no negative value and does not run backwards. *)
Theorem later_order_ids_differ (w1 w2 : World) :
  Threads.clock_ok (clock env) ->
  (0 <= order_count (self w1) < order_count (self w2))%Z ->
  (ticks w1 <= ticks w2)%nat ->
  fst (get_client_order_id env w1) <> fst (get_client_order_id env w2).
Proof.
  intros [Hnonneg Hmono] Hcount Hticks.
  rewrite !get_client_order_id_run. cbn [fst]. intros Heq.
  injection Heq as Heq.
  assert (Hnext : (0 <= order_count (self w1) + 1
                   < order_count (self w2) + 1)%Z) by lia.
  apply (client_order_id_text_distinct _ _ _ _
           (conj (Hnonneg (ticks w1)) (Hmono _ _ Hticks)) Hnext).
  unfold client_order_id_text. now rewrite Heq.
Qed.

(** The two ways [place_order_params] ends: with the dictionary, and then
    the stop price of a STOP order is positive; or with an exception, and
    then the order is a STOP order whose stop price is not. *)
Lemma place_order_params_cases (symbol : string) (side : OrderSide)
    (order_type : OrderType) (quantity price : pyval)
    (client_order_id : option string) (time_inforce : string)
    (stop_price : pyval) (w : World) :
  snd (place_order_params env symbol side order_type quantity price
         client_order_id time_inforce stop_price w)
  = after_order_prelude client_order_id w
  /\ ((exists params,
         fst (place_order_params env symbol side order_type quantity price
                client_order_id time_inforce stop_price w) = Return params)
       /\ (order_type = STOP -> py_gt0 stop_price = Ok true)
      \/ (exists e,
            fst (place_order_params env symbol side order_type quantity price
                   client_order_id time_inforce stop_price w) = Throw e)
         /\ order_type = STOP /\ py_gt0 stop_price <> Ok true).
Proof.
  unfold place_order_params, bind, get_client_order_id, get_self,
    set_order_count, get_timestamp, ret, throw, lift, after_order_prelude.
  destruct client_order_id as [cid |], order_type; cbn;
    unfold dict_get_truthy; cbn;
    try (destruct (py_truthy price); cbn);
    try (split; [reflexivity | left; split; [eauto | discriminate]]);
    destruct stop_price as [| z | f | s]; cbn;
    try (split; [reflexivity | right; repeat split; [eauto | discriminate]]);
    match goal with
    | |- context [if ?b then _ else _] => destruct b
    end; cbn;
    (split;
     [ reflexivity
     | first [ left; split; [eauto | reflexivity]
             | right; repeat split; [eauto | discriminate] ] ]).
Qed.

(** [place_order] raises in two cases and in no other: the order is a STOP
    order whose stop price is not a positive number, or the client has no
    secret. In both cases it raises before anything goes out. *)
Theorem place_order_raises_exactly (symbol : string) (side : OrderSide)
    (order_type : OrderType) (quantity price : pyval)
    (client_order_id : option string) (time_inforce : string)
    (stop_price : pyval) (w : World) :
  ((exists e,
      fst (place_order env symbol side order_type quantity price
             client_order_id time_inforce stop_price w) = Throw e)
   <-> (order_type = STOP /\ py_gt0 stop_price <> Ok true)
       \/ api_secret (self w) = None)
  /\ (forall e,
        fst (place_order env symbol side order_type quantity price
               client_order_id time_inforce stop_price w) = Throw e ->
        calls (snd (place_order env symbol side order_type quantity price
                      client_order_id time_inforce stop_price w)) = calls w
        /\ trace (snd (place_order env symbol side order_type quantity price
                         client_order_id time_inforce stop_price w))
           = trace w).
Proof.
  pose proof (place_order_params_cases symbol side order_type quantity price
                client_order_id time_inforce stop_price w) as [Hw Hcases].
  assert (Hsecret : api_secret (self (after_order_prelude client_order_id w))
                    = api_secret (self w))
    by (destruct client_order_id; reflexivity).
  assert (Hcalls : calls (after_order_prelude client_order_id w) = calls w)
    by (destruct client_order_id; reflexivity).
  assert (Htrace : trace (after_order_prelude client_order_id w) = trace w)
    by (destruct client_order_id; reflexivity).
  unfold place_order. cbv zeta. unfold bind.
  destruct (place_order_params env symbol side order_type quantity price
              client_order_id time_inforce stop_price w)
    as [[params | e0] w'] eqn:Hp.
  - cbn [fst snd] in Hw, Hcases. subst w'.
    destruct Hcases as [[_ Hpos] | [[e He] _]]; [| discriminate].
    pose proof (request_raise_cases env POST "/api/v1/order" (Some params)
                  true (after_order_prelude client_order_id w))
      as [Hraise Hreturn].
    rewrite Hsecret in Hraise, Hreturn.
    destruct (api_secret (self w)) as [secret |] eqn:Hs.
    + destruct Hreturn as [doc Hdoc].
      { intros [_ [Habs | Habs]]; discriminate. }
      rewrite Hdoc. split.
      * split; [intros [e He]; discriminate |].
        intros [[Hstop Hbad] | Habs]; [| discriminate].
        exfalso. apply Hbad, Hpos, Hstop.
      * intros e He. discriminate.
    + destruct Hraise as [what Hwhat]; [split; [reflexivity | now right] |].
      rewrite Hwhat. cbn [fst snd]. split.
      * split; [intros _; now right | eauto].
      * intros e _. split; assumption.
  - cbn [fst snd] in Hw, Hcases |- *. subst w'.
    destruct Hcases as [[[params Habs] _] | [_ [Hstop Hbad]]]; [discriminate |].
    split.
    + split; [intros _; left; split; assumption | eauto].
    + intros e _. split; assumption.
Qed.

End OrderShape.

Lemma order_parameters_witness :
  dict_get
    [("symbol", PStr "BTC-200730-9000-C"); ("side", PStr "BUY");
     ("type", PStr "LIMIT"); ("quantity", PInt 1); ("price", PInt 9000);
     ("recvWindow", PInt 10000); ("timestamp", PInt 1600000000001);
     ("newClientOrderId", PStr "x-A6SIDXVS16000000000001000001");
     ("timeInForce", PStr "GTC")]
    "newClientOrderId"
  = Some (PStr (order_id_sent env_up None fresh_world))
  /\ dict_get
       [("symbol", PStr "BTC-200730-9000-C"); ("side", PStr "BUY");
        ("type", PStr "LIMIT"); ("quantity", PInt 1); ("price", PInt 9000);
        ("recvWindow", PInt 10000); ("timestamp", PInt 1600000000001);
        ("newClientOrderId", PStr "x-A6SIDXVS16000000000001000001");
        ("timeInForce", PStr "GTC")]
       "timeInForce"
     = Some (PStr "GTC").
Proof.
  pose proof (order_parameters env_up "BTC-200730-9000-C" BUY LIMIT (PInt 1)
                (PInt 9000) None "GTC" (PInt 0) fresh_world
                (after_order_prelude None fresh_world)
                [("symbol", PStr "BTC-200730-9000-C"); ("side", PStr "BUY");
                 ("type", PStr "LIMIT"); ("quantity", PInt 1);
                 ("price", PInt 9000); ("recvWindow", PInt 10000);
                 ("timestamp", PInt 1600000000001);
                 ("newClientOrderId", PStr "x-A6SIDXVS16000000000001000001");
                 ("timeInForce", PStr "GTC")]
                eq_refl)
    as (_ & _ & _ & _ & _ & Hid & Htif & _).
  exact (conj Hid Htif).
Defined.

Lemma stop_price_matters_to_stop_orders_only_witness :
  (exists params,
     place_order_params env_up "BTC-200730-9000-C" BUY LIMIT (PInt 1)
       (PInt 9000) (Some "id1") "GTC" (PStr "none") fresh_world
     = (Return params, after_order_prelude (Some "id1") fresh_world)
     /\ dict_get params "stopPrice" = None
     /\ place_order_params env_up "BTC-200730-9000-C" BUY LIMIT (PInt 1)
          (PInt 9000) (Some "id1") "GTC" (PInt 0) fresh_world
        = (Return params, after_order_prelude (Some "id1") fresh_world))
  /\ exists what,
       place_order (FR := example_repr) env_up "BTC-200730-9000-C" BUY STOP
         (PInt 1) (PInt 9000) (Some "id1") "GTC" PNone fresh_world
       = (Throw (Builtin (TypeError what)),
          after_order_prelude (Some "id1") fresh_world).
Proof.
  split.
  - apply (stop_price_matters_to_stop_orders_only (FR := example_repr) env_up
             "BTC-200730-9000-C" BUY LIMIT (PInt 1) (PInt 9000) (Some "id1")
             "GTC" (PStr "none") fresh_world).
    discriminate.
  - apply (stop_price_matters_to_stop_orders_only (FR := example_repr) env_up
             "BTC-200730-9000-C" BUY STOP (PInt 1) (PInt 9000) (Some "id1")
             "GTC" PNone fresh_world).
    + reflexivity.
    + now left.
Defined.

Lemma later_order_ids_differ_witness :
  Threads.clock_ok (clock env_up)
  /\ fst (get_client_order_id env_up fresh_world)
     <> fst (get_client_order_id env_up
               (snd (get_client_order_id env_up fresh_world))).
Proof.
  assert (Hclock : Threads.clock_ok (clock env_up))
    by (split; cbn; intros; lia).
  split; [exact Hclock |].
  apply (later_order_ids_differ env_up fresh_world
           (snd (get_client_order_id env_up fresh_world)) Hclock).
  - cbn. lia.
  - cbn. lia.
Defined.

Lemma sign_appends_hmac_of_query_string_witness :
  exists query_string hex_digest,
    build_parameters (FR := example_repr)
      (dict_of [("symbol", PStr "BTCUSDT"); ("timestamp", PInt 1600000000000)])
    = Ok query_string
    /\ hex_digest = SHA256.hexdigest
                      (SHA256.hmac_sha256 (encode_utf8 "secret")
                                          (encode_utf8 query_string))
    /\ _sign (FR := example_repr) (self fresh_world)
         (Some (dict_of [("symbol", PStr "BTCUSDT");
                         ("timestamp", PInt 1600000000000)]))
       = Ok (query_string ++ "&signature=" ++ hex_digest)
    /\ String.length hex_digest = 64%nat
    /\ string_forall is_lower_hex hex_digest = true.
Proof.
  apply (sign_appends_hmac_of_query_string (FR := example_repr)
           (self fresh_world)
           (dict_of [("symbol", PStr "BTCUSDT"); ("timestamp", PInt 1600000000000)])
           "secret").
  - reflexivity.
  - discriminate.
Defined.

Lemma place_order_raises_exactly_witness :
  ((exists e,
      fst (place_order (FR := example_repr) env_up "BTC-200730-9000-C" BUY
             STOP (PInt 1) (PInt 9000) (Some "id1") "GTC" (PInt 0)
             fresh_world) = Throw e)
   <-> (STOP = STOP /\ py_gt0 (PInt 0) <> Ok true)
       \/ api_secret (self fresh_world) = None)
  /\ calls (snd (place_order (FR := example_repr) env_up "BTC-200730-9000-C"
                  BUY STOP (PInt 1) (PInt 9000) (Some "id1") "GTC" (PInt 0)
                  fresh_world)) = calls fresh_world
  /\ trace (snd (place_order (FR := example_repr) env_up "BTC-200730-9000-C"
                  BUY STOP (PInt 1) (PInt 9000) (Some "id1") "GTC" (PInt 0)
                  fresh_world)) = trace fresh_world.
Proof.
  destruct (place_order_raises_exactly (FR := example_repr) env_up
              "BTC-200730-9000-C" BUY STOP (PInt 1) (PInt 9000) (Some "id1")
              "GTC" (PInt 0) fresh_world) as [Hiff Hquiet].
  split; [exact Hiff |].
  apply (Hquiet (Builtin (ValueError "stopPrice must greater than 0"))).
  reflexivity.
Defined.

(** ** One caller after another *)

Section InTurn.

Import Threads.

Variable clock : nat -> Z.

Lemma run_app (a b : list nat) :
  forall s,
    run clock (a ++ b)%list s
    = match run clock a s with Some s' => run clock b s' | None => None end.
Proof.
  induction a as [| i a IH]; intros s; [reflexivity |].
  cbn [run app]. destruct (step_thread clock i s); [apply IH | reflexivity].
Qed.

Lemma lookup_at (l1 l2 : list thread) (th : thread) :
  ((l1 ++ th :: l2)%list) !! length l1 = Some th.
Proof. induction l1 as [| x l1 IH]; [reflexivity | exact IH]. Qed.

Lemma insert_at (l1 l2 : list thread) (th x : thread) :
  <[length l1 := x]> ((l1 ++ th :: l2)%list) = (l1 ++ x :: l2)%list.
Proof.
  induction l1 as [| y l1 IH]; [reflexivity |].
  simpl. f_equal. exact IH.
Qed.

(** The six steps of one call, with no other thread in between. *)
Lemma six_steps (c : Z) (k : nat) (l1 l2 : list thread) :
  run clock (replicate 6 (length l1))
    {| order_count := c; locked := false; ticks := k;
       pool := (l1 ++ Idle :: l2)%list |}
  = Some {| order_count := c + 1; locked := false; ticks := S k;
            pool := (l1 ++ Done (clock k) (c + 1) :: l2)%list |}.
Proof.
  cbn [replicate run].
  repeat (unfold step_thread at 1, set_thread;
          cbn [pool locked order_count ticks];
          rewrite lookup_at, insert_at).
  reflexivity.
Qed.

Lemma run_in_turn (n : nat) :
  forall (c : Z) (k : nat) (l1 : list thread),
    run clock (in_turn (length l1) n)
      {| order_count := c; locked := false; ticks := k;
         pool := (l1 ++ replicate n Idle)%list |}
    = Some {| order_count := c + Z.of_nat n; locked := false;
              ticks := (k + n)%nat;
              pool := (l1 ++ returned_in_turn clock k c n)%list |}.
Proof.
  unfold in_turn.
  induction n as [| n IH]; intros c k l1.
  - cbn. rewrite Z.add_0_r, Nat.add_0_r. reflexivity.
  - cbn [seq flat_map]. rewrite run_app.
    change (replicate (S n) Idle) with (Idle :: replicate n Idle).
    rewrite six_steps.
    specialize (IH (c + 1)%Z (S k) (l1 ++ [Done (clock k) (c + 1)])%list).
    rewrite length_app in IH. cbn [length] in IH.
    rewrite Nat.add_1_r, <- !app_assoc in IH. cbn [app] in IH.
    rewrite IH. cbn [returned_in_turn].
    replace (c + 1 + Z.of_nat n)%Z with (c + Z.of_nat (S n))%Z by lia.
    replace (S k + n)%nat with (k + S n)%nat by lia.
    reflexivity.
Qed.

Lemma returned_in_turn_done (k : nat) (c : Z) (n : nat) :
  Forall (fun th => is_done th = true) (returned_in_turn clock k c n).
Proof.
  revert k c. induction n as [| n IH]; intros k c; constructor;
    [reflexivity | apply IH].
Qed.

End InTurn.

Lemma order_ids_in_turn_returned (env : Env) (n : nat) :
  forall w,
    order_ids_in_turn env n w
    = omap Threads.returned
        (returned_in_turn (clock env) (ticks w) (order_count (self w)) n).
Proof.
  induction n as [| n IH]; intros w; [reflexivity |].
  cbn [order_ids_in_turn returned_in_turn].
  rewrite get_client_order_id_run. rewrite IH. reflexivity.
Qed.

(** Threads that call [get_client_order_id] strictly one after the other
    get what one thread gets that makes the calls itself: the threaded
    run ends with every call returned, the ids are those of [n] successive
    calls of the method, in the same order, and the counter has grown by
    [n]. *)
Theorem threads_in_turn_get_the_ids_of_one_caller (env : Env) (n : nat)
    (w : World) :
  exists s,
    Threads.run (clock env) (in_turn 0 n)
      (Threads.init (order_count (self w)) (ticks w) n) = Some s
    /\ Threads.finished s
    /\ omap Threads.returned (Threads.pool s) = order_ids_in_turn env n w
    /\ Threads.order_count s = (order_count (self w) + Z.of_nat n)%Z
    /\ Threads.ticks s = (ticks w + n)%nat.
Proof.
  eexists. split.
  - exact (run_in_turn (clock env) n (order_count (self w)) (ticks w) []).
  - cbn. repeat split.
    + apply returned_in_turn_done.
    + symmetry. apply order_ids_in_turn_returned.
Qed.

Lemma cancel_order_requests_once_witness :
  cancel_order (FR := example_repr) env_down "BTCUSDT" "id1" fresh_world
  = (params <- cancel_order_params env_down "BTCUSDT" "id1" ;;
     request (FR := example_repr) env_down DELETE "/api/v1/order"
       (Some params) true) fresh_world.
Proof.
  apply (cancel_order_requests_once (FR := example_repr) env_down "BTCUSDT"
           "id1" fresh_world).
  discriminate.
Defined.

(** ** STOP orders on the wire *)

Section StopUrl.

Context `{FR : FloatRepr} (env : Env).

(** With at least one attempt to make, the first thing the loop of
    [request] does is the HTTP call; what follows repeats it. *)
Lemma request_loop_first_call (m : RequestMethod) (path url : string)
    (headers : list (string * option string)) (n : nat) (w : World) :
  exists doc events,
    request_loop env n m path url headers w
    = (Return doc,
       {| self := self w; ticks := ticks w;
          calls := (calls w + count_events is_http events)%nat;
          trace := (trace w ++ events)%list |})
    /\ Forall (fun e => is_http e = true ->
                        e = EHttp (RequestMethod_value m) url headers
                              (timeout (self w)))
              events
    /\ ((0 < n)%nat ->
        exists rest,
          events = EHttp (RequestMethod_value m) url headers (timeout (self w))
                   :: rest).
Proof.
  destruct (request_loop_sends env m path url headers n w)
    as (doc & events & Hrun & _ & Hsame).
  exists doc, events. split; [exact Hrun |]. split; [exact Hsame |].
  intros Hn. destruct n as [| n]; [lia |].
  revert Hrun. cbn [request_loop]. unfold bind at 1.
  rewrite request_attempt_run.
  destruct (outcome_doc (network env (calls w))) as [d |].
  - unfold ret. intros Hrun. injection Hrun as _ _ Htrace.
    apply app_inv_head in Htrace. subst events.
    unfold attempt_events. eauto.
  - match goal with
    | |- context [request_loop env n m path url headers ?w1] =>
        destruct (request_loop_sends env m path url headers n w1)
          as (doc' & evs & Hrun' & _ & _)
    end.
    rewrite Hrun'. cbn [self ticks calls trace].
    intros Hrun. injection Hrun as _ _ Htrace.
    rewrite <- app_assoc in Htrace.
    apply app_inv_head in Htrace. subst events.
    unfold attempt_events. cbn [app]. eauto.
Qed.

(** The URL [request] builds for the dictionary of a STOP order. *)
Lemma stop_order_request_url (me : OptionClient) (secret symbol : string)
    (side : OrderSide) (quantity price : pyval) (id : string) (t : Z)
    (stop_price : pyval) :
  api_secret me = Some secret ->
  request_url me "/api/v1/order"
    (Some (dict_set
             (dict_of [("symbol", PStr symbol);
                       ("side", PStr (OrderSide_value side));
                       ("type", PStr (OrderType_value STOP));
                       ("quantity", quantity);
                       ("price", price);
                       ("recvWindow", PInt (recv_window me));
                       ("timestamp", PInt t);
                       ("newClientOrderId", PStr id)])
             "stopPrice" stop_price))
    true
  = Ok (signed_url_of me secret "/api/v1/order"
          (stop_order_query me symbol side quantity price id t stop_price)).
Proof.
  intros Hs. unfold request_url, _sign, build_parameters, signed_url_of,
    stop_order_query.
  cbn [dict_of fold_left dict_set fst snd String.eqb Ascii.eqb Bool.eqb
       dict_keys map rmap rbind dict_getitem dict_get py_str join].
  rewrite Hs. reflexivity.
Qed.

End StopUrl.

Section StopOrder.

Context `{FR : FloatRepr} (env : Env).

(** C8: a STOP order whose stop price is [<= 0] raises [ValueError] before
    any network activity: no HTTP call is made and nothing is printed. A
    STOP order whose stop price is [> 0] sends it as [stopPrice]: the
    dictionary handed to [request] holds the entry, and on a client with a
    secret every HTTP call the order makes is the POST of the URL whose
    query string carries [stopPrice=<stop price>] as its last field before
    the signature; with at least one attempt to make, that call is the
    first thing that happens. *)
Theorem stop_order_needs_positive_stop_price (symbol : string)
    (side : OrderSide) (quantity price : pyval)
    (client_order_id : option string) (time_inforce : string)
    (stop_price : pyval) (w : World) :
  (py_le0 stop_price = true ->
   place_order env symbol side STOP quantity price client_order_id
     time_inforce stop_price w
   = (Throw (Builtin (ValueError "stopPrice must greater than 0")),
      after_order_prelude client_order_id w)
   /\ calls (after_order_prelude client_order_id w) = calls w
   /\ trace (after_order_prelude client_order_id w) = trace w)
  /\ (py_gt0 stop_price = Ok true ->
      (exists params,
         place_order_params env symbol side STOP quantity price
           client_order_id time_inforce stop_price w
         = (Return params, after_order_prelude client_order_id w)
         /\ dict_get params "stopPrice" = Some stop_price
         /\ place_order env symbol side STOP quantity price client_order_id
              time_inforce stop_price w
            = request env POST "/api/v1/order" (Some params) true
                (after_order_prelude client_order_id w))
      /\ forall secret,
           api_secret (self w) = Some secret ->
           exists doc events,
             place_order env symbol side STOP quantity price client_order_id
               time_inforce stop_price w
             = (Return doc,
                {| self := self (after_order_prelude client_order_id w);
                   ticks := ticks (after_order_prelude client_order_id w);
                   calls := (calls w + count_events is_http events)%nat;
                   trace := (trace w ++ events)%list |})
             /\ Forall (fun e => is_http e = true ->
                                 e = stop_order_call env secret symbol side
                                       quantity price client_order_id
                                       stop_price w)
                       events
             /\ ((0 < try_counts (self w))%Z ->
                 exists rest,
                   events = stop_order_call env secret symbol side quantity
                              price client_order_id stop_price w
                            :: rest)).
Proof.
  split.
  - intros Hle. apply py_le0_not_gt0 in Hle.
    split; [| destruct client_order_id; split; reflexivity].
    unfold place_order, place_order_params, bind, get_client_order_id,
      get_self, set_order_count, get_timestamp, ret, after_order_prelude.
    destruct client_order_id as [c |]; cbn; rewrite Hle; reflexivity.
  - intros Hgt. split.
    + unfold place_order, place_order_params, bind, get_client_order_id,
        get_self, set_order_count, get_timestamp, ret, after_order_prelude.
      destruct client_order_id as [c |]; cbn; rewrite Hgt; cbn;
        eexists; repeat split; reflexivity.
    + intros secret Hs.
      assert (Hs' : api_secret (self (after_order_prelude client_order_id w))
                    = Some secret)
        by (destruct client_order_id; exact Hs).
      assert (Hplace :
        place_order env symbol side STOP quantity price client_order_id
          time_inforce stop_price w
        = request_loop env
            (Z.to_nat (try_counts (self (after_order_prelude client_order_id w))))
            POST "/api/v1/order"
            (signed_url_of (self (after_order_prelude client_order_id w))
               secret "/api/v1/order"
               (stop_order_query (self (after_order_prelude client_order_id w))
                  symbol side quantity price
                  (order_id_sent env client_order_id w)
                  (clock env (pred (ticks (after_order_prelude client_order_id w))))
                  stop_price))
            (api_headers (self (after_order_prelude client_order_id w)))
            (after_order_prelude client_order_id w)).
      { rewrite <- (request_run env POST "/api/v1/order" _ true _ _
                      (stop_order_request_url _ secret symbol side quantity
                         price _ _ stop_price Hs')).
        unfold place_order, place_order_params, bind, get_client_order_id,
          get_self, set_order_count, get_timestamp, ret, after_order_prelude,
          order_id_sent.
        destruct client_order_id as [c |]; cbn; rewrite Hgt; reflexivity. }
      destruct (request_loop_first_call env POST "/api/v1/order"
                  (signed_url_of (self (after_order_prelude client_order_id w))
                     secret "/api/v1/order"
                     (stop_order_query
                        (self (after_order_prelude client_order_id w))
                        symbol side quantity price
                        (order_id_sent env client_order_id w)
                        (clock env
                           (pred (ticks (after_order_prelude client_order_id w))))
                        stop_price))
                  (api_headers (self (after_order_prelude client_order_id w)))
                  (Z.to_nat
                     (try_counts (self (after_order_prelude client_order_id w))))
                  (after_order_prelude client_order_id w))
        as (doc & events & Hrun & Hsame & Hfirst).
      exists doc, events. rewrite Hplace, Hrun.
      assert (Hcalls : calls (after_order_prelude client_order_id w) = calls w)
        by (destruct client_order_id; reflexivity).
      assert (Htrace : trace (after_order_prelude client_order_id w) = trace w)
        by (destruct client_order_id; reflexivity).
      assert (Htry : try_counts (self (after_order_prelude client_order_id w))
                     = try_counts (self w))
        by (destruct client_order_id; reflexivity).
      rewrite Hcalls, Htrace. split; [reflexivity |].
      split; [exact Hsame |].
      intros Hpos. apply Hfirst. rewrite Htry. lia.
Qed.

End StopOrder.

Lemma stop_order_needs_positive_stop_price_witness :
  (place_order (FR := example_repr) env_up "BTC-200730-9000-C" BUY STOP
     (PInt 1) (PInt 9000) None "GTC" (PFloat 0%float) fresh_world
   = (Throw (Builtin (ValueError "stopPrice must greater than 0")),
      after_order_prelude None fresh_world)
   /\ calls (after_order_prelude None fresh_world) = calls fresh_world
   /\ trace (after_order_prelude None fresh_world) = trace fresh_world)
  /\ (exists params,
        place_order_params env_up "BTC-200730-9000-C" BUY
          STOP (PInt 1) (PInt 9000) None "GTC" (PInt 8500) fresh_world
        = (Return params, after_order_prelude None fresh_world)
        /\ dict_get params "stopPrice" = Some (PInt 8500)
        /\ place_order (FR := example_repr) env_up "BTC-200730-9000-C" BUY STOP
             (PInt 1) (PInt 9000) None "GTC" (PInt 8500) fresh_world
           = request (FR := example_repr) env_up POST "/api/v1/order"
               (Some params) true (after_order_prelude None fresh_world))
  /\ stop_order_call (FR := example_repr) env_up "secret" "BTC-200730-9000-C"
       BUY (PInt 1) (PInt 9000) None (PInt 8500) fresh_world
     = EHttp "POST"
         "https://testnet.binanceops.com/api/v1/order?symbol=BTC-200730-9000-C&side=BUY&type=STOP&quantity=1&price=9000&recvWindow=10000&timestamp=1600000000001&newClientOrderId=x-A6SIDXVS16000000000001000001&stopPrice=8500&signature=eaaa718d75f4c0300125b3706dd46635f2e7bbdcb023259f9df11a92fe25ae87"
         [("X-MBX-APIKEY", Some "key")] 5
  /\ exists doc events rest,
       place_order (FR := example_repr) env_up "BTC-200730-9000-C" BUY STOP
         (PInt 1) (PInt 9000) None "GTC" (PInt 8500) fresh_world
       = (Return doc,
          {| self := self (after_order_prelude None fresh_world);
             ticks := ticks (after_order_prelude None fresh_world);
             calls := (calls fresh_world + count_events is_http events)%nat;
             trace := (trace fresh_world ++ events)%list |})
       /\ events
          = stop_order_call (FR := example_repr) env_up "secret"
              "BTC-200730-9000-C" BUY (PInt 1) (PInt 9000) None (PInt 8500)
              fresh_world
            :: rest.
Proof.
  destruct (stop_order_needs_positive_stop_price (FR := example_repr) env_up
              "BTC-200730-9000-C" BUY (PInt 1) (PInt 9000) None "GTC"
              (PFloat 0%float) fresh_world) as [Hraise _].
  destruct (stop_order_needs_positive_stop_price (FR := example_repr) env_up
              "BTC-200730-9000-C" BUY (PInt 1) (PInt 9000) None "GTC"
              (PInt 8500) fresh_world) as [_ Hsend].
  destruct (Hsend eq_refl) as [Hparams Hcall].
  destruct (Hcall "secret" eq_refl) as (doc & events & Hrun & _ & Hfirst).
  destruct (Hfirst eq_refl) as [rest Hrest].
  split; [exact (Hraise eq_refl) |].
  split; [exact Hparams |].
  split; [vm_compute; reflexivity |].
  exists doc, events, rest. split; [exact Hrun | exact Hrest].
Defined.

(** ** Ids that share a text *)

Section SharedTexts.




End SharedTexts.

(** ** Threads on any clock *)

Section AnyClock.

Import Threads.

Variable clock : nat -> Z.














End AnyClock.

(** ** How far the counter gets *)

Section Pending.

Import Threads.

Variable clock : nat -> Z.
Variable c0 : Z.



Hypothesis clock_fine : clock_ok clock.




End Pending.



(** ** Two ids with one text *)

Section SameText.

Import Threads.

Variable clock : nat -> Z.


End SameText.

